(** * webcrypto-local: key-storage service, client subtle surface, action codec

    A shallow embedding of

    - [KeyStorageService.onMessage] (server side, the switch over the six
      key-storage action codes),
    - [SubtleCrypto.deriveBits], [SubtleCrypto.digest] and
      [SubtleCrypto.generateKey] (client side),
    - the other operations of [SubtleCrypto]: [encrypt], [decrypt],
      [deriveKey], [exportKey], [importKey], [sign], [verify], [wrapKey],
      [unwrapKey] and [encryptData],

    together with a schema-driven model of the action codec.

    Asynchronous calls ([await]) are sequenced in program order; a thrown
    exception aborts the handler and leaves behind every effect performed
    before it.  Effects are threaded through an explicit state that also
    keeps a log of the calls made to collaborators, in the order they are
    made. *)

From stdpp Require Import gmap strings list fin_maps pretty.
From Stdlib Require Import ZArith Ascii.

Open Scope string_scope.

(** ** Errors and outcomes *)

(** [WebCryptoLocalError.CODE].  Only [ACTION_NOT_IMPLEMENTED] is named by
    the sources at hand; the other symbols are the ones of the error
    envelope. *)
Inductive CODE :=
| ACTION_NOT_IMPLEMENTED
| PROVIDER_NOT_FOUND
| HANDLE_NOT_FOUND
| BAD_PARAMETERS
| NOT_AUTHENTICATED
| PROVIDER_OPERATION_FAILED.

Record WebCryptoLocalError := mkError { code : CODE; message : string }.

Inductive Outcome (A : Type) :=
| Ok (a : A)
| Throw (e : WebCryptoLocalError).
Arguments Ok {A} a.
Arguments Throw {A} e.

#[global] Instance CODE_eq_dec : EqDecision CODE.
Proof. solve_decision. Defined.

#[global] Instance WebCryptoLocalError_eq_dec : EqDecision WebCryptoLocalError.
Proof. solve_decision. Defined.

Abbreviation ArrayBuffer := (list Byte.byte).

(** [Convert.FromUtf8String]: a [string] is taken to be its own UTF-8 byte
    sequence. *)
Definition FromUtf8String (s : string) : ArrayBuffer := String.list_byte_of_string s.

(** [usages.join(", ")] *)
Fixpoint join (sep : string) (l : list string) : string :=
  match l with
  | [] => ""
  | [x] => x
  | x :: rest => x ++ sep ++ join sep rest
  end.

(** JavaScript truthiness of a possibly absent string ([if (index)]):
    [undefined], [null] and the empty string are falsy. *)
Definition truthy_string (s : option string) : bool :=
  match s with
  | Some (String _ _) => true
  | _ => false
  end.

(** [x || undefined] on a possibly absent boolean. *)
Definition or_undefined (b : option bool) : option bool :=
  match b with
  | Some true => Some true
  | _ => None
  end.

(** The provider classes a session can resolve; [PvCrypto] is the one the
    service tests for with [instanceof]. *)
Inductive ProviderClass := OpenSSLCrypto | Pkcs11Crypto | PvCrypto.

#[global] Instance ProviderClass_eq_dec : EqDecision ProviderClass.
Proof. solve_decision. Defined.

Inductive KeyType := secret | public | private.

(** The types that belong to collaborators outside these sources: plain
    WebCrypto algorithm dictionaries, their protobuf counterpart, the
    provider-native part of a key, and a provider's key storage. *)
Class Platform := {
  Algorithm : Type;
  AlgorithmProto : Type;
  NativeKey : Type;
  KeyStore : Type;
}.

(** * Server side: [KeyStorageService] *)

Module KeyStorage.

Section Service.
Context `{Platform}.

(** A key's [algorithm] property: either a plain dictionary, or an object
    that carries a [toAlgorithm] method (a protobuf algorithm). *)
Inductive KeyAlgorithm :=
| PlainAlgorithm (a : Algorithm)
| ConvertibleAlgorithm (p : AlgorithmProto).

(** The live key object. *)
Record CryptoKey := mkCryptoKey {
  algorithm : KeyAlgorithm;
  type : KeyType;
  extractable : bool;
  usages : list string;
  native : NativeKey;
}.

(** Live key objects are heap objects; a memory-storage item refers to its
    key by location. *)
Abbreviation loc := nat.

Record ServiceCryptoItem := mkItem {
  id : string;
  providerID : string;
  item : loc;
}.

Record Provider := mkProvider {
  class : ProviderClass;
  keyStorage : KeyStore;
}.

(** The second argument the service hands to [PvCrypto]'s [setItem]. *)
Record PinOptions := mkPin {
  pinFriendlyName : string;
  pinDescription : string;
}.

Record Session := mkSession { headers_origin : string }.

Record ActionProto := mkAction {
  actionId : string;
  action : string;
  payload : ArrayBuffer;
}.

Record ResultProto := mkResult {
  r_actionId : string;
  r_action : string;
  data : option ArrayBuffer;
}.

(** [new ResultProto(action)] *)
Definition new_ResultProto (a : ActionProto) : ResultProto :=
  {| r_actionId := actionId a; r_action := action a; data := None |}.

Definition set_data (r : ResultProto) (d : ArrayBuffer) : ResultProto :=
  {| r_actionId := r_actionId r; r_action := r_action r; data := Some d |}.

(** Decoded parameters of the six actions.  Every one of them extends
    [CryptoActionProto] and so carries [providerID]. *)
Record GetItemParams := mkGetItem {
  gi_providerID : string;
  gi_key : string;
  gi_algorithm : AlgorithmProto;
  gi_extractable : option bool;
  gi_keyUsages : option (list string);
}.

(** [params.item.id] is the only part of [item] the service reads. *)
Record ItemParams := mkItemParams {
  ip_providerID : string;
  ip_item_id : string;
}.

Record RemoveItemParams := mkRemoveItem {
  ri_providerID : string;
  ri_key : string;
}.

Record ProviderParams := mkProviderParams { pp_providerID : string }.

(** A call on [crypto.keyStorage], with its arguments. *)
Inductive KeyStorageCall :=
| CallGetItem (key : string) (alg : option Algorithm)
              (extractable : option bool) (usages : option (list string))
| CallSetItem (key : CryptoKey) (options : option PinOptions)
| CallRemoveItem (key : string)
| CallKeys
| CallIndexOf (key : CryptoKey)
| CallClear.

(** The calls the handler makes, logged in program order. *)
Inductive Event :=
| EvImportProto (code : string)
| EvMemoryItem (id : string)
| EvGetCrypto (id : string)
| EvSetAlgorithm (l : loc)
| EvKeyStorage (provider : string) (call : KeyStorageCall)
| EvMemoryAdd (id : string)
| EvExportProto (id : string).

(** The collaborators of the service that live outside these sources. *)
Class Collaborators := {
  (** the [ACTION] constants of [core/protos/keystorage] *)
  GetItemACTION : string;
  SetItemACTION : string;
  RemoveItemACTION : string;
  KeysACTION : string;
  IndexOfACTION : string;
  ClearACTION : string;
  (** [importProto] of each action class *)
  GetItem_importProto : ActionProto -> Outcome GetItemParams;
  SetItem_importProto : ActionProto -> Outcome ItemParams;
  RemoveItem_importProto : ActionProto -> Outcome RemoveItemParams;
  Keys_importProto : ActionProto -> Outcome ProviderParams;
  IndexOf_importProto : ActionProto -> Outcome ItemParams;
  Clear_importProto : ActionProto -> Outcome ProviderParams;
  (** [AlgorithmProto.isEmpty] and [AlgorithmProto.toAlgorithm] *)
  isEmpty : AlgorithmProto -> bool;
  toAlgorithm : AlgorithmProto -> Algorithm;
  (** the provider's key storage: each verb runs against the storage of
      a provider of the given class, answers and leaves a new storage *)
  ks_getItem :
    ProviderClass -> KeyStore -> string -> option Algorithm ->
    option bool -> option (list string) ->
    Outcome (option CryptoKey) * KeyStore;
  ks_setItem :
    ProviderClass -> KeyStore -> CryptoKey -> option PinOptions ->
    Outcome string * KeyStore;
  ks_removeItem : ProviderClass -> KeyStore -> string -> Outcome unit * KeyStore;
  ks_keys : ProviderClass -> KeyStore -> Outcome (list string) * KeyStore;
  ks_indexOf :
    ProviderClass -> KeyStore -> CryptoKey -> Outcome (option string) * KeyStore;
  ks_clear : ProviderClass -> KeyStore -> Outcome unit * KeyStore;
  (** the identifier [new ServiceCryptoItem(key, providerID)] gives its
      item; the number is the count of items built so far *)
  newItemId : nat -> CryptoKey -> string -> string;
  (** [item.toProto().exportProto()], reading the live key *)
  toProto_exportProto : ServiceCryptoItem -> CryptoKey -> Outcome ArrayBuffer;
  (** [ArrayStringConverter.set(keys).buffer] *)
  ArrayStringConverter_set : list string -> ArrayBuffer;
}.

Context `{Collaborators}.

(** ** State *)

Record World := mkWorld {
  providers : gmap string Provider;
  heap : gmap loc CryptoKey;
  memoryStorage : gmap string ServiceCryptoItem;
  built : nat;
  trace : list Event;
}.

Definition M (A : Type) := World -> Outcome A * World.

Definition ret {A} (a : A) : M A := fun w => (Ok a, w).

Definition throw {A} (e : WebCryptoLocalError) : M A := fun w => (Throw e, w).

Definition bind {A B} (m : M A) (k : A -> M B) : M B :=
  fun w =>
    match m w with
    | (Ok a, w') => k a w'
    | (Throw e, w') => (Throw e, w')
    end.

Definition lift {A} (o : Outcome A) : M A := fun w => (o, w).

Definition log (e : Event) : M unit :=
  fun w =>
    (Ok tt, {| providers := providers w; heap := heap w;
               memoryStorage := memoryStorage w; built := built w;
               trace := trace w ++ [e] |}).

Notation "x <~ c ;; k" := (bind c (fun x => k))
  (at level 100, c at next level, right associativity).
Notation "c ;;; k" := (bind c (fun _ => k))
  (at level 100, right associativity).

(** ** Collaborators as effectful calls *)

(** A resolved provider: the directory key it was found under and the
    provider object. *)
Record Crypto := mkCrypto { crypto_id : string; crypto_obj : Provider }.

(** Modelled from the spec: [CryptoService.getCrypto] is not among the
    sources.  The Provider Directory resolves a provider id to a Provider
    or fails with a provider-not-found error. *)
Definition getCrypto (pid : string) : M Crypto :=
  log (EvGetCrypto pid) ;;;
  fun w =>
    match providers w !! pid with
    | Some p => (Ok (mkCrypto pid p), w)
    | None =>
        (Throw (mkError PROVIDER_NOT_FOUND
                  ("Cannot get crypto by given ID '" ++ pid ++ "'")), w)
    end.

(** Modelled from the spec: [MemoryStorage.item] is not among the sources.
    The Handle Registry answers the entry stored under a handle id or fails
    with a not-found error. *)
Definition memoryStorage_item (i : string) : M ServiceCryptoItem :=
  log (EvMemoryItem i) ;;;
  fun w =>
    match memoryStorage w !! i with
    | Some it => (Ok it, w)
    | None =>
        (Throw (mkError HANDLE_NOT_FOUND
                  ("Cannot get crypto item by ID '" ++ i ++ "'")), w)
    end.

(** Modelled from the spec: [MemoryStorage.add] is not among the sources.
    The item is entered under its own id. *)
Definition memoryStorage_add (it : ServiceCryptoItem) : M unit :=
  log (EvMemoryAdd (id it)) ;;;
  fun w =>
    (Ok tt, {| providers := providers w; heap := heap w;
               memoryStorage := <[id it := it]> (memoryStorage w);
               built := built w; trace := trace w |}).

(** Reading the object a reference points to ([.item as CryptoKey]).  A
    reference held by the process always points to an object; the error
    answer only makes the reading total on a heap that lacks the object. *)
Definition deref (l : loc) : M CryptoKey :=
  fun w =>
    match heap w !! l with
    | Some k => (Ok k, w)
    | None =>
        (Throw (mkError HANDLE_NOT_FOUND "dangling key reference"), w)
    end.

(** [(key as any).algorithm = v]: an in-place write to the live object. *)
Definition set_algorithm (l : loc) (a : KeyAlgorithm) : M unit :=
  log (EvSetAlgorithm l) ;;;
  fun w =>
    (Ok tt, {| providers := providers w;
               heap := alter (fun k => {| algorithm := a; type := type k;
                                          extractable := extractable k;
                                          usages := usages k;
                                          native := native k |}) l (heap w);
               memoryStorage := memoryStorage w;
               built := built w; trace := trace w |}).

(** [new ServiceCryptoItem(key, providerID)]: the key object the provider
    handed back becomes a live object of the process. *)
Definition new_ServiceCryptoItem (key : CryptoKey) (pid : string)
  : M ServiceCryptoItem :=
  fun w =>
    let l := fresh (dom (heap w)) in
    (Ok {| id := newItemId (built w) key pid; providerID := pid; item := l |},
     {| providers := providers w; heap := <[l := key]> (heap w);
        memoryStorage := memoryStorage w;
        built := S (built w); trace := trace w |}).

(** [await item.toProto().exportProto()] *)
Definition exportProto (it : ServiceCryptoItem) : M ArrayBuffer :=
  log (EvExportProto (id it)) ;;;
  (key <~ deref (item it) ;;
   lift (toProto_exportProto it key)).

(** A call on [crypto.keyStorage]: logged, run against the provider's
    current storage, the storage it leaves written back. *)
Definition on_keyStorage {A} (crypto : Crypto) (call : KeyStorageCall)
    (run : ProviderClass -> KeyStore -> Outcome A * KeyStore) : M A :=
  log (EvKeyStorage (crypto_id crypto) call) ;;;
  fun w =>
    let p := default (crypto_obj crypto) (providers w !! crypto_id crypto) in
    let '(r, ks) := run (class p) (keyStorage p) in
    (r, {| providers :=
             <[crypto_id crypto := {| class := class p; keyStorage := ks |}]>
               (providers w);
           heap := heap w; memoryStorage := memoryStorage w;
           built := built w; trace := trace w |}).

Definition keyStorage_getItem crypto key alg ext us : M (option CryptoKey) :=
  on_keyStorage crypto (CallGetItem key alg ext us)
    (fun c ks => ks_getItem c ks key alg ext us).

Definition keyStorage_setItem crypto key options : M string :=
  on_keyStorage crypto (CallSetItem key options)
    (fun c ks => ks_setItem c ks key options).

Definition keyStorage_removeItem crypto key : M unit :=
  on_keyStorage crypto (CallRemoveItem key)
    (fun c ks => ks_removeItem c ks key).

Definition keyStorage_keys crypto : M (list string) :=
  on_keyStorage crypto CallKeys ks_keys.

Definition keyStorage_indexOf crypto key : M (option string) :=
  on_keyStorage crypto (CallIndexOf key)
    (fun c ks => ks_indexOf c ks key).

Definition keyStorage_clear crypto : M unit :=
  on_keyStorage crypto CallClear ks_clear.

(** [P.X.importProto(action)] *)
Definition importProto {A} (decode : ActionProto -> Outcome A)
    (a : ActionProto) : M A :=
  log (EvImportProto (action a)) ;;; lift (decode a).

(** [crypto instanceof PvCrypto] *)
Definition instanceof_PvCrypto (crypto : Crypto) : bool :=
  match class (crypto_obj crypto) with
  | PvCrypto => true
  | _ => false
  end.

(** [!x ? undefined : x] on a possibly absent array: an array, even an
    empty one, is truthy. *)
Definition unless_falsy (l : option (list string)) : option (list string) :=
  match l with
  | Some l => Some l
  | None => None
  end.

(** The options [PvCrypto]'s [setItem] is given. *)
Definition pin_options (session : Session) (key : CryptoKey) : PinOptions :=
  {| pinFriendlyName := headers_origin session;
     pinDescription := join ", " (usages key) |}.

(** ** [KeyStorageService.onMessage] *)

(** The [case] labels of the [switch], in the order they are written. *)
Inductive Case :=
| CaseGetItem | CaseSetItem | CaseRemoveItem | CaseKeys | CaseIndexOf
| CaseClear | CaseDefault.

(** [switch (action.action)]: the first label equal to the code is taken. *)
Definition switch (code : string) : Case :=
  if decide (code = GetItemACTION) then CaseGetItem
  else if decide (code = SetItemACTION) then CaseSetItem
  else if decide (code = RemoveItemACTION) then CaseRemoveItem
  else if decide (code = KeysACTION) then CaseKeys
  else if decide (code = IndexOfACTION) then CaseIndexOf
  else if decide (code = ClearACTION) then CaseClear
  else CaseDefault.

Definition onMessage (session : Session) (a : ActionProto) : M ResultProto :=
  let result := new_ResultProto a in
  match switch (action a) with
  | CaseGetItem =>
    (* prepare incoming data *)
    params <~ importProto GetItem_importProto a ;;
    crypto <~ getCrypto (gi_providerID params) ;;
    (* do operation *)
    key <~ keyStorage_getItem crypto
             (gi_key params)
             (if isEmpty (gi_algorithm params) then None
              else Some (toAlgorithm (gi_algorithm params)))
             (or_undefined (gi_extractable params))
             (unless_falsy (gi_keyUsages params)) ;;
    match key with
    | Some key =>
        (* add keys to memory storage *)
        cryptoKey <~ new_ServiceCryptoItem key (gi_providerID params) ;;
        memoryStorage_add cryptoKey ;;;
        d <~ exportProto cryptoKey ;;
        ret (set_data result d)
    | None => ret result
    end
  | CaseSetItem =>
    (* prepare incoming data *)
    params <~ importProto SetItem_importProto a ;;
    it <~ memoryStorage_item (ip_item_id params) ;;
    let key := item it in
    crypto <~ getCrypto (ip_providerID params) ;;
    (* do operation *)
    k <~ deref key ;;
    match algorithm k with
    | ConvertibleAlgorithm p =>
        set_algorithm key (PlainAlgorithm (toAlgorithm p))
    | PlainAlgorithm _ => ret tt
    end ;;;
    k <~ deref key ;;
    index <~ (if instanceof_PvCrypto crypto then
                keyStorage_setItem crypto k (Some (pin_options session k))
              else
                keyStorage_setItem crypto k None) ;;
    ret (set_data result (FromUtf8String index))
  | CaseRemoveItem =>
    params <~ importProto RemoveItem_importProto a ;;
    crypto <~ getCrypto (ri_providerID params) ;;
    keyStorage_removeItem crypto (ri_key params) ;;;
    ret result
  | CaseKeys =>
    params <~ importProto Keys_importProto a ;;
    crypto <~ getCrypto (pp_providerID params) ;;
    keys <~ keyStorage_keys crypto ;;
    ret (set_data result (ArrayStringConverter_set keys))
  | CaseIndexOf =>
    params <~ importProto IndexOf_importProto a ;;
    crypto <~ getCrypto (ip_providerID params) ;;
    it <~ memoryStorage_item (ip_item_id params) ;;
    key <~ deref (item it) ;;
    index <~ keyStorage_indexOf crypto key ;;
    if truthy_string index then
      ret (set_data result (FromUtf8String (default "" index)))
    else ret result
  | CaseClear =>
    params <~ importProto Clear_importProto a ;;
    crypto <~ getCrypto (pp_providerID params) ;;
    keyStorage_clear crypto ;;;
    ret result
  | CaseDefault =>
    throw (mkError ACTION_NOT_IMPLEMENTED
             ("Action '" ++ action a ++ "' is not implemented"))
  end.

(** The call [GetItem] makes on the key storage, as the handler builds it
    from the decoded parameters. *)
Definition getItem_call (params : GetItemParams) : KeyStorageCall :=
  CallGetItem (gi_key params)
    (if isEmpty (gi_algorithm params) then None
     else Some (toAlgorithm (gi_algorithm params)))
    (or_undefined (gi_extractable params))
    (unless_falsy (gi_keyUsages params)).

(** A key after [SetItem]'s conversion of its [algorithm]. *)
Definition converted (k : CryptoKey) : CryptoKey :=
  match algorithm k with
  | ConvertibleAlgorithm p =>
      {| algorithm := PlainAlgorithm (toAlgorithm p); type := type k;
         extractable := extractable k; usages := usages k;
         native := native k |}
  | PlainAlgorithm _ => k
  end.

(** The action codes the service declares as its own. *)
Definition owned : list string :=
  [KeysACTION; IndexOfACTION; GetItemACTION; SetItemACTION;
   RemoveItemACTION; ClearACTION].

End Service.
End KeyStorage.

(** * Client side: [SubtleCrypto] *)

Module Subtle.

(** The client-side types that belong to collaborators outside these
    sources. *)
Class ClientTypes := {
  AlgorithmIdentifier : Type;
  BufferSource : Type;
  CryptoKeyProto : Type;
  CryptoKeyPairProto : Type;
}.

Section Client.
Context `{Platform} `{ClientTypes}.

(** The run-time values a caller can pass where the signature asks for a
    primitive or a key.  A number is taken to be an integer. *)
Inductive Value :=
| VUndefined
| VNumber (n : Z)
| VString (s : string)
| VBoolean (b : bool)
| VKey (k : CryptoKeyProto)
| VAlgorithmProto (p : AlgorithmProto).

(** [typeof] *)
Definition typeof (v : Value) : string :=
  match v with
  | VUndefined => "undefined"
  | VNumber _ => "number"
  | VString _ => "string"
  | VBoolean _ => "boolean"
  | VKey _ | VAlgorithmProto _ => "object"
  end.

(** The actions the three operations build. *)
Inductive Action :=
| DeriveBitsActionProto (providerID : string) (algorithm : AlgorithmProto)
                        (key : CryptoKeyProto) (length : Value)
| DigestActionProto (algorithm : AlgorithmProto) (data : ArrayBuffer)
                    (providerID : string)
| GenerateKeyActionProto (providerID : string) (algorithm : AlgorithmProto)
                         (extractable : Value) (usage : list string).

(** What [generateKey] resolves to. *)
Inductive Generated :=
| KeyPair (pair : CryptoKeyPairProto)
| SingleKey (key : CryptoKeyProto).

(** [self.crypto.subtle.digest] *)
Abbreviation NativeDigest :=
  (AlgorithmIdentifier -> ArrayBuffer -> Outcome ArrayBuffer).

(** The global [self].  The identifier may not be declared at all, and
    then reading it throws: [error] is the error thrown, a
    [ReferenceError].  When it is declared, [crypto] may be absent. *)
Inductive Self :=
| Undeclared (error : WebCryptoLocalError)
| mkSelf (crypto : option NativeDigest).

(** [SocketCrypto]: the provider the client is bound to. *)
Record SocketCrypto := mkSocketCrypto { id : string }.

(** The calls the client makes, logged in program order. *)
Inductive Event :=
| EvNativeDigest (algorithm : AlgorithmIdentifier) (data : ArrayBuffer)
| EvWarn (text : string)
| EvSend (a : Action)
| EvImportKeyPair (data : ArrayBuffer)
| EvImportKey (data : ArrayBuffer).

(** The collaborators of [SubtleCrypto] that live outside these sources. *)
Class Collaborators := {
  (** [utils] *)
  checkAlgorithm : AlgorithmIdentifier -> string -> Outcome unit;
  checkCryptoKey : Value -> string -> Outcome unit;
  checkBufferSource : BufferSource -> string -> Outcome unit;
  checkArray : list string -> string -> Outcome unit;
  prepareAlgorithm : AlgorithmIdentifier -> AlgorithmProto;
  (** [algProto.public = await Cast(algProto.public).exportProto()] *)
  export_public : AlgorithmProto -> Outcome AlgorithmProto;
  (** [algProto.name] *)
  name : AlgorithmProto -> string;
  (** [core.BufferSourceConverter.toArrayBuffer] *)
  toArrayBuffer : BufferSource -> ArrayBuffer;
  (** [importProto] of the two key shapes *)
  CryptoKeyPairProto_importProto : ArrayBuffer -> Outcome CryptoKeyPairProto;
  CryptoKeyProto_importProto : ArrayBuffer -> Outcome CryptoKeyProto;
  (** [service.client.send]: the answer of the service to one action *)
  client_send : Action -> Outcome ArrayBuffer;
}.

Context `{Collaborators}.

(** Modelled from the spec: [utils.checkPrimitive] is not among the
    sources.  Per-field validation requires the value to be of the named
    primitive type, and a numeric value to be non-negative; a value that
    fails it is refused with a bad-parameters error. *)
Definition checkPrimitive (data : Value) (type paramName : string)
  : Outcome unit :=
  if decide (typeof data = type) then
    match data with
    | VNumber n =>
        if (n <? 0)%Z then
          Throw (mkError BAD_PARAMETERS
                   (paramName ++ ": Must not be negative"))
        else Ok tt
    | _ => Ok tt
    end
  else
    Throw (mkError BAD_PARAMETERS
             (paramName ++ ": Wrong type. Must be " ++ type)).

(** ** Effects *)

Definition C (A : Type) := list Event -> Outcome A * list Event.

Definition ret {A} (a : A) : C A := fun t => (Ok a, t).

Definition bind {A B} (m : C A) (k : A -> C B) : C B :=
  fun t =>
    match m t with
    | (Ok a, t') => k a t'
    | (Throw e, t') => (Throw e, t')
    end.

Definition lift {A} (o : Outcome A) : C A := fun t => (o, t).

Definition log (e : Event) : C unit := fun t => (Ok tt, (t ++ [e])%list).

(** [try { body } catch (e) { handler }] *)
Definition try_catch {A} (body : C A) (handler : WebCryptoLocalError -> C A)
  : C A :=
  fun t =>
    match body t with
    | (Ok a, t') => (Ok a, t')
    | (Throw e, t') => handler e t'
    end.

Notation "x <~ c ;; k" := (bind c (fun x => k))
  (at level 100, c at next level, right associativity).
Notation "c ;;; k" := (bind c (fun _ => k))
  (at level 100, right associativity).

Definition send (a : Action) : C ArrayBuffer :=
  log (EvSend a) ;;; lift (client_send a).

Definition native_digest (subtle : NativeDigest)
    (algorithm : AlgorithmIdentifier) (data : ArrayBuffer) : C ArrayBuffer :=
  log (EvNativeDigest algorithm data) ;;; lift (subtle algorithm data).

Definition console_warn (text : string) : C unit := log (EvWarn text).

Definition importKeyPair (data : ArrayBuffer) : C CryptoKeyPairProto :=
  log (EvImportKeyPair data) ;;; lift (CryptoKeyPairProto_importProto data).

Definition importKey (data : ArrayBuffer) : C CryptoKeyProto :=
  log (EvImportKey data) ;;; lift (CryptoKeyProto_importProto data).

(** ** [SubtleCrypto.deriveBits] *)
Definition deriveBits (this : SocketCrypto) (algorithm : AlgorithmIdentifier)
    (baseKey : CryptoKeyProto) (length : Value) : C ArrayBuffer :=
  (* check *)
  lift (checkAlgorithm algorithm "algorithm") ;;;
  lift (checkCryptoKey (VKey baseKey) "baseKey") ;;;
  lift (checkPrimitive length "number" "length") ;;;
  (* prepare *)
  let algProto := prepareAlgorithm algorithm in
  lift (checkCryptoKey (VAlgorithmProto algProto) "algorithm.public") ;;;
  algProto <~ lift (export_public algProto) ;;
  (* fill action *)
  let action := DeriveBitsActionProto (id this) algProto baseKey length in
  (* request *)
  send action.

(** ** [SubtleCrypto.digest]

    [self.crypto] is read by the [if], outside the [try]: what reading
    [self] throws is thrown by [digest].  The [return] inside [try] is the
    [Some] answer of the guarded block; [None] falls through to the
    request. *)
Definition digest (this : SocketCrypto) (self : Self)
    (algorithm : AlgorithmIdentifier) (data : BufferSource) : C ArrayBuffer :=
  (* check *)
  lift (checkAlgorithm algorithm "algorithm") ;;;
  lift (checkBufferSource data "data") ;;;
  (* prepare *)
  let algProto := prepareAlgorithm algorithm in
  let rawData := toArrayBuffer data in
  (* Use native digest if possible *)
  native <~ match self with
            | Undeclared error => lift (Throw error)
            | mkSelf (Some subtle) =>
                try_catch
                  (r <~ native_digest subtle algorithm rawData ;; ret (Some r))
                  (fun err =>
                     console_warn ("Cannot do native digest for algorithm '"
                                   ++ name algProto ++ "'") ;;;
                     ret None)
            | mkSelf None => ret None
            end ;;
  match native with
  | Some r => ret r
  | None =>
      (* fill action *)
      let action := DigestActionProto algProto rawData (id this) in
      (* request *)
      send action
  end.

(** ** [SubtleCrypto.generateKey] *)
Definition generateKey (this : SocketCrypto) (algorithm : AlgorithmIdentifier)
    (extractable : Value) (keyUsages : list string) : C Generated :=
  (* check *)
  lift (checkAlgorithm algorithm "algorithm") ;;;
  lift (checkPrimitive extractable "boolean" "extractable") ;;;
  lift (checkArray keyUsages "keyUsages") ;;;
  (* prepare *)
  let algProto := prepareAlgorithm algorithm in
  (* Fill action *)
  let action :=
    GenerateKeyActionProto (id this) algProto extractable keyUsages in
  result <~ send action ;;
  try_catch
    (* CryptoKeyPair *)
    (keyPair <~ importKeyPair result ;; ret (KeyPair keyPair))
    (* CryptoKey *)
    (fun e => key <~ importKey result ;; ret (SingleKey key)).

End Client.
End Subtle.

(** * Action codec *)

Module Codec.

Inductive FieldType := TString | TBool | TBytes | TUint | TStrings.

#[global] Instance FieldType_eq_dec : EqDecision FieldType.
Proof. solve_decision. Defined.

Inductive FieldValue :=
| FString (s : string)
| FBool (b : bool)
| FBytes (b : ArrayBuffer)
| FUint (n : N)
| FStrings (l : list string).

Definition type_of (v : FieldValue) : FieldType :=
  match v with
  | FString _ => TString
  | FBool _ => TBool
  | FBytes _ => TBytes
  | FUint _ => TUint
  | FStrings _ => TStrings
  end.

Record FieldSpec := mkField { ftype : FieldType; required : bool }.

(** A wire message: tagged fields in the order they were written.  It may
    carry tags no schema knows. *)
Abbreviation Message := (list (nat * FieldValue)).

(** Modelled from the spec: the protobuf classes of [core/proto] and
    [core/protos] are not among the sources.  A schema gives each of its
    field tags one type and says whether the field is required; a value of
    the schema gives some of the tags a value. *)
Abbreviation Schema := (gmap nat FieldSpec).

(** A value conforms to a schema when each field it sets is a field of the
    schema, set to a value of the field's type, and it sets every required
    field. *)
Definition conforms (s : gmap nat FieldSpec) (x : gmap nat FieldValue) : Prop :=
  map_Forall (fun i v => ftype <$> s !! i = Some (type_of v)) x /\
  map_Forall (fun i f => required f = true -> is_Some (x !! i)) s.

Definition bad_parameters {A} (text : string) : Outcome A :=
  Throw (mkError BAD_PARAMETERS text).

(** Modelled from the spec: encoding writes the fields of the schema that
    the value sets, and no other. *)
Definition encode (s : gmap nat FieldSpec) (x : gmap nat FieldValue)
  : Message :=
  map_to_list (filter (fun f => is_Some (s !! f.1)) x).

(** Modelled from the spec: reading the fields of a message.  A field whose
    tag the schema does not know is skipped; a field of the schema must be
    well-typed. *)
Fixpoint decode_fields (s : gmap nat FieldSpec) (m : Message)
  : Outcome (gmap nat FieldValue) :=
  match m with
  | [] => Ok ∅
  | (i, v) :: rest =>
      match decode_fields s rest with
      | Throw e => Throw e
      | Ok x =>
          match s !! i with
          | None => Ok x
          | Some f =>
              if decide (ftype f = type_of v) then Ok (<[i := v]> x)
              else bad_parameters "field of the wrong type"
          end
      end
  end.

(** Modelled from the spec: decoding validates that required fields are
    present and well-typed; a failure is a bad-parameters error. *)
Definition decode (s : gmap nat FieldSpec) (m : Message)
  : Outcome (gmap nat FieldValue) :=
  match decode_fields s m with
  | Throw e => Throw e
  | Ok x =>
      if decide (map_Forall (fun i f => required f = true -> is_Some (x !! i)) s)
      then Ok x
      else bad_parameters "required field is missing"
  end.

End Codec.

(** * A small concrete platform

    One instance of every collaborator, on which the statements below are
    exercised: algorithms are named by strings, a provider's storage is a
    list of named native handles, and an action's payload reads
    [provider;argument]. *)

Module Sample.

Definition platform : Platform :=
  {| Algorithm := string;
     AlgorithmProto := option string;
     NativeKey := nat;
     KeyStore := list (string * nat) |}.

(** [provider;argument] *)
Fixpoint split_semicolon (s : string) : string * string :=
  match s with
  | EmptyString => ("", "")
  | String c rest =>
      if Ascii.eqb c ";"%char then ("", rest)
      else let '(a, b) := split_semicolon rest in (String c a, b)
  end.

Definition text (a : @KeyStorage.ActionProto) : string * string :=
  split_semicolon (String.string_of_list_byte (KeyStorage.payload a)).

Definition stored_key (n : nat) : @KeyStorage.CryptoKey platform :=
  @KeyStorage.mkCryptoKey platform
    (@KeyStorage.PlainAlgorithm platform "AES-GCM")
    secret false ["encrypt"; "decrypt"] n.

Fixpoint find_name (ks : list (string * nat)) (k : string) : option nat :=
  match ks with
  | [] => None
  | (name, n) :: rest => if decide (name = k) then Some n else find_name rest k
  end.

Fixpoint find_handle (ks : list (string * nat)) (n : nat) : option string :=
  match ks with
  | [] => None
  | (name, m) :: rest => if decide (m = n) then Some name else find_handle rest n
  end.

Definition collaborators : @KeyStorage.Collaborators platform :=
  @KeyStorage.Build_Collaborators platform
    "crypto/keyStorage/getItem"
    "crypto/keyStorage/setItem"
    "crypto/keyStorage/removeItem"
    "crypto/keyStorage/keys"
    "crypto/keyStorage/indexOf"
    "crypto/keyStorage/clear"
    (fun a => Ok (@KeyStorage.mkGetItem platform
                    (text a).1 (text a).2 None (Some false) None))
    (fun a => Ok (KeyStorage.mkItemParams (text a).1 (text a).2))
    (fun a => Ok (KeyStorage.mkRemoveItem (text a).1 (text a).2))
    (fun a => Ok (KeyStorage.mkProviderParams (text a).1))
    (fun a => Ok (KeyStorage.mkItemParams (text a).1 (text a).2))
    (fun a => Ok (KeyStorage.mkProviderParams (text a).1))
    (fun p => match p with None => true | Some _ => false end)
    (fun p => default "" p)
    (fun _ ks key _ ext _ =>
       (Ok (match ext with
            | Some true => None
            | _ => stored_key <$> find_name ks key
            end), ks))
    (fun _ ks key options =>
       let index :=
         match options with
         | Some o => KeyStorage.pinFriendlyName o
         | None => "key"
         end in
       (Ok index, (index, @KeyStorage.native platform key) :: ks))
    (fun _ ks key => (Ok tt, filter (fun e => e.1 <> key) ks))
    (fun _ ks => (Ok ks.*1, ks))
    (fun _ ks key => (Ok (find_handle ks (@KeyStorage.native platform key)), ks))
    (fun _ ks => (Ok tt, []))
    (fun n _ pid => pid ++ "-" ++ pretty n)
    (fun it _ => Ok (FromUtf8String (KeyStorage.id it)))
    (fun keys => FromUtf8String (join "," keys)).

Definition onMessage := @KeyStorage.onMessage platform collaborators.

Definition session : KeyStorage.Session :=
  KeyStorage.mkSession "https://example.org".

Definition rsa_key : @KeyStorage.CryptoKey platform :=
  @KeyStorage.mkCryptoKey platform
    (@KeyStorage.ConvertibleAlgorithm platform (Some "RSA-PSS"))
    private false ["sign"] 7.

(** Two providers, one live key registered under the handle [h1]. *)
Definition world (pv : ProviderClass) : @KeyStorage.World platform :=
  @KeyStorage.mkWorld platform
    {[ "ossl" := @KeyStorage.mkProvider platform OpenSSLCrypto [("aes", 3)];
       "token" := @KeyStorage.mkProvider platform pv [] ]}
    {[ 0 := rsa_key ]}
    {[ "h1" := KeyStorage.mkItem "h1" "token" 0 ]}
    1
    [].

Definition request (code text : string) : KeyStorage.ActionProto :=
  KeyStorage.mkAction "1" code (String.list_byte_of_string text).

Definition sign_h1 := request "crypto/subtle/sign" "token;h1".
Definition getItem_aes := request "crypto/keyStorage/getItem" "ossl;aes".
Definition getItem_none := request "crypto/keyStorage/getItem" "ossl;rsa".
Definition setItem_h1 := request "crypto/keyStorage/setItem" "token;h1".
Definition setItem_ghost := request "crypto/keyStorage/setItem" "ghost;nope".
Definition indexOf_ghost := request "crypto/keyStorage/indexOf" "ghost;nope".

(** On the client: an algorithm identifier is a name, a key is its handle
    id, and the service answers a key as [key;id] and a pair as
    [pair;id]. *)
Definition client_types : Subtle.ClientTypes :=
  {| Subtle.AlgorithmIdentifier := string;
     Subtle.BufferSource := ArrayBuffer;
     Subtle.CryptoKeyProto := string;
     Subtle.CryptoKeyPairProto := string * string |}.

Definition bytes (s : string) : ArrayBuffer := String.list_byte_of_string s.

Definition shaped (shape : string) (data : ArrayBuffer) : Outcome string :=
  let '(tag, rest) := split_semicolon (String.string_of_list_byte data) in
  if decide (tag = shape) then Ok rest
  else Throw (mkError BAD_PARAMETERS "Cannot parse the message").

(** The service this client talks to: its digest reverses the data. *)
Definition service (a : @Subtle.Action platform client_types)
  : Outcome ArrayBuffer :=
  match a with
  | Subtle.DigestActionProto _ data _ => Ok (rev data)
  | Subtle.GenerateKeyActionProto _ (Some "RSA-PSS") _ _ => Ok (bytes "pair;k1")
  | Subtle.GenerateKeyActionProto _ (Some "AES-GCM") _ _ => Ok (bytes "key;k2")
  | Subtle.GenerateKeyActionProto _ _ _ _ => Ok (bytes "neither")
  | Subtle.DeriveBitsActionProto _ _ _ (Subtle.VNumber n) =>
      Ok (replicate (Z.to_nat (n / 8)) Byte.x00)
  | Subtle.DeriveBitsActionProto _ _ _ _ =>
      Throw (mkError PROVIDER_OPERATION_FAILED "length")
  end.

Definition client : @Subtle.Collaborators platform client_types :=
  @Subtle.Build_Collaborators platform client_types
    (fun alg _ =>
       if decide (alg = "") then
         Throw (mkError BAD_PARAMETERS "algorithm: Wrong type")
       else Ok tt)
    (fun v _ =>
       match v with
       | Subtle.VKey _ | Subtle.VAlgorithmProto _ => Ok tt
       | _ => Throw (mkError BAD_PARAMETERS "key: Wrong type")
       end)
    (fun _ _ => Ok tt)
    (fun _ _ => Ok tt)
    (fun alg => Some alg)
    (fun p => Ok p)
    (fun p => default "" p)
    (fun data => data)
    (fun data =>
       match shaped "pair" data with
       | Ok i => Ok (i ++ ".private", i ++ ".public")
       | Throw e => Throw e
       end)
    (fun data => shaped "key" data)
    service.

Definition this : Subtle.SocketCrypto := Subtle.mkSocketCrypto "token".

(** Two in-process digests: one that computes what the service computes,
    one that fails. *)
Definition native_same : string -> ArrayBuffer -> Outcome ArrayBuffer :=
  fun _ data => Ok (rev data).

Definition native_failing : string -> ArrayBuffer -> Outcome ArrayBuffer :=
  fun _ _ => Throw (mkError PROVIDER_OPERATION_FAILED "Unrecognized name").

Definition self_same : @Subtle.Self client_types :=
  @Subtle.mkSelf client_types (Some native_same).
Definition self_failing : @Subtle.Self client_types :=
  @Subtle.mkSelf client_types (Some native_failing).
Definition self_none : @Subtle.Self client_types :=
  @Subtle.mkSelf client_types None.

(** Where no global [self] is declared.  A [ReferenceError] has no code of
    its own among [CODE]; it is written with that of a native failure. *)
Definition reference_error : WebCryptoLocalError :=
  mkError PROVIDER_OPERATION_FAILED "ReferenceError: self is not defined".
Definition self_undeclared : @Subtle.Self client_types :=
  @Subtle.Undeclared client_types reference_error.

Definition digest := @Subtle.digest platform client_types client.
Definition generateKey := @Subtle.generateKey platform client_types client.
Definition deriveBits := @Subtle.deriveBits platform client_types client.

Definition abc : ArrayBuffer := bytes "abc".

(** A schema with a required string, a required flag and an optional byte
    field, and a value of it. *)
Definition schema : gmap nat Codec.FieldSpec :=
  {[ 1 := Codec.mkField Codec.TString true;
     2 := Codec.mkField Codec.TBool true;
     3 := Codec.mkField Codec.TBytes false ]}.

Definition value : gmap nat Codec.FieldValue :=
  {[ 1 := Codec.FString "token"; 2 := Codec.FBool false ]}.

End Sample.

(** * What an action names, read through its decoder *)

Module KeyStorageAux.
Import KeyStorage.

Section Aux.
Context `{Collaborators}.

(** The answer of the decoder of the action's case, reduced to the
    provider id it carries. *)
Definition named_provider (a : ActionProto) : option (Outcome string) :=
  match switch (action a) with
  | CaseGetItem =>
      Some match GetItem_importProto a with
           | Ok p => Ok (gi_providerID p) | Throw e => Throw e end
  | CaseSetItem =>
      Some match SetItem_importProto a with
           | Ok p => Ok (ip_providerID p) | Throw e => Throw e end
  | CaseRemoveItem =>
      Some match RemoveItem_importProto a with
           | Ok p => Ok (ri_providerID p) | Throw e => Throw e end
  | CaseKeys =>
      Some match Keys_importProto a with
           | Ok p => Ok (pp_providerID p) | Throw e => Throw e end
  | CaseIndexOf =>
      Some match IndexOf_importProto a with
           | Ok p => Ok (ip_providerID p) | Throw e => Throw e end
  | CaseClear =>
      Some match Clear_importProto a with
           | Ok p => Ok (pp_providerID p) | Throw e => Throw e end
  | CaseDefault => None
  end.

(** The state after the handler has logged some calls and done nothing
    else. *)
Definition logged (w : World) (events : list Event) : World :=
  {| providers := providers w; heap := heap w;
     memoryStorage := memoryStorage w; built := built w;
     trace := (trace w ++ events)%list |}.

End Aux.
End KeyStorageAux.

(** * What a client operation has sent *)

Module SubtleAux.
Import Subtle.

Section Aux.
Context `{Platform} `{ClientTypes}.

(** [action.providerID] *)
Definition providerID (a : Action) : string :=
  match a with
  | DeriveBitsActionProto p _ _ _ => p
  | DigestActionProto _ _ p => p
  | GenerateKeyActionProto p _ _ _ => p
  end.

(** The actions sent, in order. *)
Definition sent (t : list Event) : list Action :=
  omap (fun e => match e with EvSend a => Some a | _ => None end) t.

End Aux.
End SubtleAux.

(** * Client side: the other operations of [SubtleCrypto] *)

Module SubtleOps.
Import Subtle.

(** A JSON web key, as [JSON.parse] builds it. *)
Class JsonTypes := { JsonWebKey : Type }.

Section Client.
Context `{Collaborators} `{JsonTypes}.

(** [keyData: JsonWebKey | BufferSource] *)
Inductive KeyData :=
| Jwk (jwk : JsonWebKey)
| Buffer (data : BufferSource).

Inductive Action :=
| EncryptActionProto (providerID : string) (algorithm : AlgorithmProto)
                     (key : CryptoKeyProto) (data : ArrayBuffer)
| DecryptActionProto (providerID : string) (algorithm : AlgorithmProto)
                     (key : CryptoKeyProto) (data : ArrayBuffer)
| DeriveKeyActionProto (providerID : string) (algorithm : AlgorithmProto)
                       (derivedKeyType : AlgorithmProto)
                       (key : CryptoKeyProto) (extractable : Value)
                       (usage : list string)
| ExportKeyActionProto (providerID : string) (format : Value)
                       (key : CryptoKeyProto)
| ImportKeyActionProto (providerID : string) (algorithm : AlgorithmProto)
                       (keyData : ArrayBuffer) (format : Value)
                       (extractable : Value) (keyUsages : list string)
| SignActionProto (providerID : string) (algorithm : AlgorithmProto)
                  (key : CryptoKeyProto) (data : ArrayBuffer)
| VerifyActionProto (providerID : string) (algorithm : AlgorithmProto)
                    (key : CryptoKeyProto) (data : ArrayBuffer)
                    (signature : ArrayBuffer)
| WrapKeyActionProto (providerID : string) (wrapAlgorithm : AlgorithmProto)
                     (key : CryptoKeyProto) (wrappingKey : CryptoKeyProto)
                     (format : Value)
| UnwrapKeyActionProto (providerID : string) (format : Value)
                       (unwrapAlgorithm : AlgorithmProto)
                       (unwrappedKeyAlgorithm : AlgorithmProto)
                       (unwrappingKey : CryptoKeyProto)
                       (wrappedKey : ArrayBuffer) (extractable : Value)
                       (keyUsage : list string).

(** [action.providerID] *)
Definition providerID (a : Action) : string :=
  match a with
  | EncryptActionProto p _ _ _ | DecryptActionProto p _ _ _
  | DeriveKeyActionProto p _ _ _ _ _ | ExportKeyActionProto p _ _
  | ImportKeyActionProto p _ _ _ _ _ | SignActionProto p _ _ _
  | VerifyActionProto p _ _ _ _ | WrapKeyActionProto p _ _ _ _
  | UnwrapKeyActionProto p _ _ _ _ _ _ _ => p
  end.

(** What [exportKey] resolves to. *)
Inductive Exported :=
| ExportedJwk (jwk : JsonWebKey)
| ExportedRaw (data : ArrayBuffer).

Inductive Event :=
| EvSend (a : Action)
| EvImportKey (data : ArrayBuffer).

(** The further collaborators of these operations.  [utils.checkPrimitive]
    is one of them here: it is applied as the source applies it and
    nothing is supposed of what it checks. *)
Class OpsCollaborators := {
  checkPrimitive : Value -> string -> string -> Outcome unit;
  (** [utils.checkBufferSource] and [toArrayBuffer] on a [keyData] that is
      a JSON web key *)
  checkBufferSource_jwk : JsonWebKey -> string -> Outcome unit;
  toArrayBuffer_jwk : JsonWebKey -> ArrayBuffer;
  (** [action.derivedKeyType.fromAlgorithm(algKeyType)] *)
  fromAlgorithm : AlgorithmProto -> AlgorithmProto;
  JSON_parse : string -> Outcome JsonWebKey;
  JSON_stringify : KeyData -> string;
  ops_send : Action -> Outcome ArrayBuffer;
}.

Context `{OpsCollaborators}.

(** [Convert.ToBinary]: one character for each byte. *)
Definition ToBinary (data : ArrayBuffer) : string :=
  String.string_of_list_byte data.

(** [format === "jwk"] *)
Definition is_jwk (format : Value) : bool :=
  match format with
  | VString s => bool_decide (s = "jwk")
  | _ => false
  end.

(** [!!(new Uint8Array(result)[0])]: an index past the end reads
    [undefined]. *)
Definition first_byte_truthy (result : ArrayBuffer) : bool :=
  match result with
  | [] => false
  | b :: _ => negb (Byte.eqb b Byte.x00)
  end.

Definition keyData_checkBufferSource (keyData : KeyData) (paramName : string)
  : Outcome unit :=
  match keyData with
  | Buffer data => checkBufferSource data paramName
  | Jwk jwk => checkBufferSource_jwk jwk paramName
  end.

Definition keyData_toArrayBuffer (keyData : KeyData) : ArrayBuffer :=
  match keyData with
  | Buffer data => toArrayBuffer data
  | Jwk jwk => toArrayBuffer_jwk jwk
  end.

(** ** Effects *)

Definition O (A : Type) := list Event -> Outcome A * list Event.

Definition ret {A} (a : A) : O A := fun t => (Ok a, t).

Definition bind {A B} (m : O A) (k : A -> O B) : O B :=
  fun t =>
    match m t with
    | (Ok a, t') => k a t'
    | (Throw e, t') => (Throw e, t')
    end.

Definition lift {A} (o : Outcome A) : O A := fun t => (o, t).

Definition log (e : Event) : O unit := fun t => (Ok tt, (t ++ [e])%list).

Notation "x <~ c ;; k" := (bind c (fun x => k))
  (at level 100, c at next level, right associativity).
Notation "c ;;; k" := (bind c (fun _ => k))
  (at level 100, right associativity).

Definition send (a : Action) : O ArrayBuffer :=
  log (EvSend a) ;;; lift (ops_send a).

(** [await CryptoKeyProto.importProto(result)] *)
Definition importProto (data : ArrayBuffer) : O CryptoKeyProto :=
  log (EvImportKey data) ;;; lift (CryptoKeyProto_importProto data).

(** ** [SubtleCrypto.encryptData] *)
Definition encryptData (this : SocketCrypto) (algorithm : AlgorithmIdentifier)
    (key : CryptoKeyProto) (data : BufferSource) (type : string)
  : O ArrayBuffer :=
  (* check data *)
  lift (checkAlgorithm algorithm "algorithm") ;;;
  lift (checkCryptoKey (VKey key) "key") ;;;
  lift (checkBufferSource data "data") ;;;
  (* prepare *)
  let algProto := prepareAlgorithm algorithm in
  let rawData := toArrayBuffer data in
  (* select encrypt/decrypt action *)
  let ActionClass :=
    if decide (type = "encrypt") then EncryptActionProto
    else DecryptActionProto in
  (* fill action *)
  let action := ActionClass (id this) algProto key rawData in
  (* request *)
  send action.

(** ** [SubtleCrypto.encrypt], [SubtleCrypto.decrypt] *)
Definition encrypt this algorithm key data : O ArrayBuffer :=
  encryptData this algorithm key data "encrypt".

Definition decrypt this algorithm key data : O ArrayBuffer :=
  encryptData this algorithm key data "decrypt".

(** ** [SubtleCrypto.deriveKey] *)
Definition deriveKey (this : SocketCrypto) (algorithm : AlgorithmIdentifier)
    (baseKey : CryptoKeyProto) (derivedKeyType : AlgorithmIdentifier)
    (extractable : Value) (keyUsages : list string) : O CryptoKeyProto :=
  (* check incoming data *)
  lift (checkAlgorithm algorithm "algorithm") ;;;
  lift (checkCryptoKey (VKey baseKey) "baseKey") ;;;
  lift (checkAlgorithm derivedKeyType "algorithm") ;;;
  lift (checkPrimitive extractable "boolean" "extractable") ;;;
  lift (checkArray keyUsages "keyUsages") ;;;
  (* prepare incoming data *)
  let algProto := prepareAlgorithm algorithm in
  lift (checkCryptoKey (VAlgorithmProto algProto) "algorithm.public") ;;;
  algProto <~ lift (export_public algProto) ;;
  let algKeyType := prepareAlgorithm derivedKeyType in
  (* fill action *)
  let action :=
    DeriveKeyActionProto (id this) algProto (fromAlgorithm algKeyType)
      baseKey extractable keyUsages in
  (* request *)
  result <~ send action ;;
  importProto result.

(** ** [SubtleCrypto.exportKey] *)
Definition exportKey (this : SocketCrypto) (format : Value)
    (key : CryptoKeyProto) : O Exported :=
  (* check *)
  lift (checkPrimitive format "string" "format") ;;;
  lift (checkCryptoKey (VKey key) "key") ;;;
  (* fill action *)
  let action := ExportKeyActionProto (id this) format key in
  (* request *)
  result <~ send action ;;
  if is_jwk format then
    jwk <~ lift (JSON_parse (ToBinary result)) ;;
    ret (ExportedJwk jwk)
  else
    ret (ExportedRaw result).

(** ** [SubtleCrypto.importKey] *)
Definition importKey (this : SocketCrypto) (format : Value)
    (keyData : KeyData) (algorithm : AlgorithmIdentifier)
    (extractable : Value) (keyUsages : list string) : O CryptoKeyProto :=
  (* check *)
  lift (checkPrimitive format "string" "format") ;;;
  lift (checkAlgorithm algorithm "algorithm") ;;;
  lift (checkPrimitive extractable "boolean" "extractable") ;;;
  lift (checkArray keyUsages "keyUsages") ;;;
  (* prepare *)
  let algProto := prepareAlgorithm algorithm in
  preparedKeyData <~
    (if is_jwk format then
       ret (FromUtf8String (JSON_stringify keyData))
     else
       lift (keyData_checkBufferSource keyData "keyData") ;;;
       ret (keyData_toArrayBuffer keyData)) ;;
  (* fill action *)
  let action :=
    ImportKeyActionProto (id this) algProto preparedKeyData format
      extractable keyUsages in
  (* request *)
  result <~ send action ;;
  importProto result.

(** ** [SubtleCrypto.sign] *)
Definition sign (this : SocketCrypto) (algorithm : AlgorithmIdentifier)
    (key : CryptoKeyProto) (data : BufferSource) : O ArrayBuffer :=
  (* check *)
  lift (checkAlgorithm algorithm "algorithm") ;;;
  lift (checkCryptoKey (VKey key) "key") ;;;
  lift (checkBufferSource data "data") ;;;
  (* prepare *)
  let algProto := prepareAlgorithm algorithm in
  let rawData := toArrayBuffer data in
  (* fill action *)
  let action := SignActionProto (id this) algProto key rawData in
  (* request *)
  send action.

(** ** [SubtleCrypto.verify] *)
Definition verify (this : SocketCrypto) (algorithm : AlgorithmIdentifier)
    (key : CryptoKeyProto) (signature data : BufferSource) : O bool :=
  (* check *)
  lift (checkAlgorithm algorithm "algorithm") ;;;
  lift (checkCryptoKey (VKey key) "key") ;;;
  lift (checkBufferSource signature "signature") ;;;
  lift (checkBufferSource data "data") ;;;
  (* prepare *)
  let algProto := prepareAlgorithm algorithm in
  let rawSignature := toArrayBuffer signature in
  let rawData := toArrayBuffer data in
  (* fill action *)
  let action :=
    VerifyActionProto (id this) algProto key rawData rawSignature in
  (* request *)
  result <~ send action ;;
  ret (first_byte_truthy result).

(** ** [SubtleCrypto.wrapKey] *)
Definition wrapKey (this : SocketCrypto) (format : Value)
    (key wrappingKey : CryptoKeyProto) (wrapAlgorithm : AlgorithmIdentifier)
  : O ArrayBuffer :=
  (* check *)
  lift (checkPrimitive format "string" "format") ;;;
  lift (checkCryptoKey (VKey key) "key") ;;;
  lift (checkCryptoKey (VKey wrappingKey) "wrappingKey") ;;;
  lift (checkAlgorithm wrapAlgorithm "wrapAlgorithm") ;;;
  (* prepare *)
  let wrapAlgProto := prepareAlgorithm wrapAlgorithm in
  (* fil action *)
  let action :=
    WrapKeyActionProto (id this) wrapAlgProto key wrappingKey format in
  (* request *)
  send action.

(** ** [SubtleCrypto.unwrapKey] *)
Definition unwrapKey (this : SocketCrypto) (format : Value)
    (wrappedKey : BufferSource) (unwrappingKey : CryptoKeyProto)
    (unwrapAlgorithm unwrappedKeyAlgorithm : AlgorithmIdentifier)
    (extractable : Value) (keyUsages : list string) : O CryptoKeyProto :=
  (* check *)
  lift (checkPrimitive format "string" "format") ;;;
  lift (checkBufferSource wrappedKey "wrappedKey") ;;;
  lift (checkCryptoKey (VKey unwrappingKey) "unwrappingKey") ;;;
  lift (checkAlgorithm unwrapAlgorithm "unwrapAlgorithm") ;;;
  lift (checkAlgorithm unwrappedKeyAlgorithm "unwrappedKeyAlgorithm") ;;;
  lift (checkPrimitive extractable "boolean" "extractable") ;;;
  lift (checkArray keyUsages "keyUsages") ;;;
  (* prepare *)
  let unwrapAlgProto := prepareAlgorithm unwrapAlgorithm in
  let unwrappedKeyAlgProto := prepareAlgorithm unwrappedKeyAlgorithm in
  let rawWrappedKey := toArrayBuffer wrappedKey in
  (* fill action *)
  let action :=
    UnwrapKeyActionProto (id this) format unwrapAlgProto unwrappedKeyAlgProto
      unwrappingKey rawWrappedKey extractable keyUsages in
  (* request *)
  result <~ send action ;;
  importProto result.

(** The actions sent, in order. *)
Definition sent (t : list Event) : list Action :=
  omap (fun e => match e with EvSend a => Some a | _ => None end) t.

(** A run that asked the service once, naming the provider the client is
    bound to, or else failed without asking. *)
Definition asks_once {A} (this : SocketCrypto) (t : list Event)
    (run : Outcome A * list Event) : Prop :=
  (exists a, providerID a = id this /\ sent run.2 = (sent t ++ [a])%list) \/
  (sent run.2 = sent t /\ exists e, run.1 = Throw e).

End Client.
End SubtleOps.

(** * More of the concrete platform *)

Module SampleMore.

Definition locked : WebCryptoLocalError :=
  mkError PROVIDER_OPERATION_FAILED "Token is locked".

Definition malformed : WebCryptoLocalError :=
  mkError BAD_PARAMETERS "Cannot parse the message".

(** A decoder that refuses a payload naming no provider. *)
Definition strictly {A} (decode : KeyStorage.ActionProto -> Outcome A)
    (a : KeyStorage.ActionProto) : Outcome A :=
  if decide ((Sample.text a).1 = "") then Throw malformed else decode a.

(** The collaborators of [Sample], with stricter decoders and a storage
    that refuses the key named [locked]. *)
Definition strict : @KeyStorage.Collaborators Sample.platform :=
  let c := Sample.collaborators in
  @KeyStorage.Build_Collaborators Sample.platform
    (@KeyStorage.GetItemACTION _ c) (@KeyStorage.SetItemACTION _ c)
    (@KeyStorage.RemoveItemACTION _ c) (@KeyStorage.KeysACTION _ c)
    (@KeyStorage.IndexOfACTION _ c) (@KeyStorage.ClearACTION _ c)
    (strictly (@KeyStorage.GetItem_importProto _ c))
    (strictly (@KeyStorage.SetItem_importProto _ c))
    (strictly (@KeyStorage.RemoveItem_importProto _ c))
    (strictly (@KeyStorage.Keys_importProto _ c))
    (strictly (@KeyStorage.IndexOf_importProto _ c))
    (strictly (@KeyStorage.Clear_importProto _ c))
    (@KeyStorage.isEmpty _ c) (@KeyStorage.toAlgorithm _ c)
    (fun cls ks key alg ext us =>
       if decide (key = "locked") then (Throw locked, ks)
       else @KeyStorage.ks_getItem _ c cls ks key alg ext us)
    (@KeyStorage.ks_setItem _ c) (@KeyStorage.ks_removeItem _ c)
    (@KeyStorage.ks_keys _ c) (@KeyStorage.ks_indexOf _ c)
    (@KeyStorage.ks_clear _ c) (@KeyStorage.newItemId _ c)
    (@KeyStorage.toProto_exportProto _ c)
    (@KeyStorage.ArrayStringConverter_set _ c).

Definition strict_onMessage := @KeyStorage.onMessage Sample.platform strict.

(** A world whose software provider stores the registered key under the
    empty name. *)
Definition world : @KeyStorage.World Sample.platform :=
  @KeyStorage.mkWorld Sample.platform
    {[ "ossl" := @KeyStorage.mkProvider Sample.platform OpenSSLCrypto
                   [("aes", 3); ("", 7)];
       "token" := @KeyStorage.mkProvider Sample.platform PvCrypto [] ]}
    {[ 0 := Sample.rsa_key ]}
    {[ "h1" := KeyStorage.mkItem "h1" "token" 0 ]}
    1
    [].

Definition indexOf_h1 := Sample.request "crypto/keyStorage/indexOf" "ossl;h1".
Definition indexOf_new := Sample.request "crypto/keyStorage/indexOf" "ossl;ossl-1".
Definition setItem_new := Sample.request "crypto/keyStorage/setItem" "token;ossl-1".
Definition clear_ossl := Sample.request "crypto/keyStorage/clear" "ossl;".
Definition removeItem_aes :=
  Sample.request "crypto/keyStorage/removeItem" "ossl;aes".
Definition getItem_ghost := Sample.request "crypto/keyStorage/getItem" "ghost;aes".
Definition getItem_locked :=
  Sample.request "crypto/keyStorage/getItem" "ossl;locked".
Definition getItem_nothing := Sample.request "crypto/keyStorage/getItem" "".

(** The state after [GetItem] has found the key [aes]. *)
Definition after_getItem : @KeyStorage.World Sample.platform :=
  (Sample.onMessage Sample.session Sample.getItem_aes
     (Sample.world PvCrypto)).2.

(** The state after a first [SetItem] on the handle [h1]. *)
Definition after_setItem : @KeyStorage.World Sample.platform :=
  (Sample.onMessage Sample.session Sample.setItem_h1
     (Sample.world PvCrypto)).2.

(** A client whose service is out of reach. *)
Definition unreachable : WebCryptoLocalError :=
  mkError PROVIDER_OPERATION_FAILED "Service is out of reach".

Definition offline : @Subtle.Collaborators Sample.platform Sample.client_types :=
  let c := Sample.client in
  @Subtle.Build_Collaborators Sample.platform Sample.client_types
    (@Subtle.checkAlgorithm _ _ c) (@Subtle.checkCryptoKey _ _ c)
    (@Subtle.checkBufferSource _ _ c) (@Subtle.checkArray _ _ c)
    (@Subtle.prepareAlgorithm _ _ c) (@Subtle.export_public _ _ c)
    (@Subtle.name _ _ c) (@Subtle.toArrayBuffer _ _ c)
    (@Subtle.CryptoKeyPairProto_importProto _ _ c)
    (@Subtle.CryptoKeyProto_importProto _ _ c)
    (fun _ => Throw unreachable).

(** The other operations: a JSON web key is its text; the service signs
    and encrypts by reversing, and verifies by comparing. *)
Definition json : SubtleOps.JsonTypes := {| SubtleOps.JsonWebKey := string |}.

Abbreviation OpsAction :=
  (@SubtleOps.Action Sample.platform Sample.client_types).

Definition ops_service (a : OpsAction) : Outcome ArrayBuffer :=
  match a with
  | SubtleOps.EncryptActionProto _ _ _ data => Ok (rev data)
  | SubtleOps.DecryptActionProto _ _ _ data => Ok (rev data)
  | SubtleOps.SignActionProto _ _ _ data => Ok (rev data)
  | SubtleOps.VerifyActionProto _ _ _ data signature =>
      Ok (if decide (String.string_of_list_byte signature
                     = String.string_of_list_byte (rev data))
          then [Byte.x01] else [Byte.x00])
  | SubtleOps.ExportKeyActionProto _ format _ =>
      if @SubtleOps.is_jwk Sample.platform Sample.client_types format
      then Ok (Sample.bytes "{kty}") else Ok (Sample.bytes "raw")
  | SubtleOps.WrapKeyActionProto _ _ _ _ _ => Ok (Sample.bytes "wrapped")
  | SubtleOps.DeriveKeyActionProto _ _ _ _ _ _ => Ok (Sample.bytes "key;derived")
  | SubtleOps.ImportKeyActionProto _ _ data _ _ _ =>
      Ok (Sample.bytes "key;" ++ data)%list
  | SubtleOps.UnwrapKeyActionProto _ _ _ _ _ _ _ _ => Ok (Sample.bytes "none")
  end.

Definition ops :
  @SubtleOps.OpsCollaborators Sample.platform Sample.client_types json :=
  @SubtleOps.Build_OpsCollaborators Sample.platform Sample.client_types json
    (fun v type _ =>
       if decide (@Subtle.typeof Sample.platform Sample.client_types v = type)
       then Ok tt else Throw malformed)
    (fun _ _ => Throw malformed)
    (fun _ => [])
    (fun p => p)
    (fun s => match s with
              | String "{" _ => Ok s
              | _ => Throw malformed
              end)
    (fun k => match k with
              | SubtleOps.Jwk jwk => jwk
              | SubtleOps.Buffer _ => "{}"
              end)
    ops_service.

Definition encrypt :=
  @SubtleOps.encrypt Sample.platform Sample.client_types Sample.client json ops.
Definition decrypt :=
  @SubtleOps.decrypt Sample.platform Sample.client_types Sample.client json ops.
Definition encryptData :=
  @SubtleOps.encryptData Sample.platform Sample.client_types Sample.client
    json ops.
Definition verify :=
  @SubtleOps.verify Sample.platform Sample.client_types Sample.client json ops.
Definition exportKey :=
  @SubtleOps.exportKey Sample.platform Sample.client_types Sample.client
    json ops.
Definition importKey :=
  @SubtleOps.importKey Sample.platform Sample.client_types Sample.client
    json ops.
Definition unwrapKey :=
  @SubtleOps.unwrapKey Sample.platform Sample.client_types Sample.client
    json ops.

Definition jwk_format : @Subtle.Value Sample.platform Sample.client_types :=
  @Subtle.VString Sample.platform Sample.client_types "jwk".
Definition raw_format : @Subtle.Value Sample.platform Sample.client_types :=
  @Subtle.VString Sample.platform Sample.client_types "raw".
Definition yes : @Subtle.Value Sample.platform Sample.client_types :=
  @Subtle.VBoolean Sample.platform Sample.client_types true.

Definition jwk_data : @SubtleOps.KeyData Sample.client_types json :=
  @SubtleOps.Jwk Sample.client_types json "{kty}".

End SampleMore.

(** * Properties of [KeyStorageService.onMessage] *)

Module KeyStorageFacts.
Import KeyStorage.
#[local] Open Scope list_scope.

Section Facts.
Context `{Collaborators}.

(** Unfolds one run of the handler down to its collaborators. *)
Ltac run :=
  unfold onMessage, importProto, getCrypto, memoryStorage_item,
    memoryStorage_add, exportProto, deref, set_algorithm,
    new_ServiceCryptoItem, keyStorage_getItem, keyStorage_setItem,
    keyStorage_removeItem, keyStorage_keys, keyStorage_indexOf,
    keyStorage_clear, on_keyStorage, bind, lift, log, ret, throw;
  cbn [fst snd providers heap memoryStorage built trace crypto_id crypto_obj
       id providerID item].

Lemma switch_default code : code ∉ owned -> switch code = CaseDefault.
Proof.
  unfold owned, switch. intros Hn.
  repeat case_decide; try reflexivity; exfalso; apply Hn; subst code;
    set_solver.
Qed.

(** C3. An action whose code is none of the six the service owns is
    refused with [ACTION_NOT_IMPLEMENTED]; the message names the code, and
    the whole state, the memory storage included, is left as it was. *)
Theorem unowned_action_not_implemented session a w :
  action a ∉ owned ->
  onMessage session a w =
    (Throw (mkError ACTION_NOT_IMPLEMENTED
              ("Action '" ++ action a ++ "' is not implemented")%string), w).
Proof.
  intros Hn. unfold onMessage. rewrite (switch_default _ Hn). reflexivity.
Qed.

(** C4. When the storage lookup of a [GetItem] action finds a key, the key
    is entered in the memory storage, and only then is the result built:
    its data is the exported projection of that very item, and it answers
    the action at hand; the entry is there whatever the export answers.
    When the lookup finds nothing, the memory storage is left as it was
    and the result carries no data. *)
Theorem getItem_registers_before_result session a w params p found ks' :
  switch (action a) = CaseGetItem ->
  GetItem_importProto a = Ok params ->
  providers w !! gi_providerID params = Some p ->
  ks_getItem (class p) (keyStorage p) (gi_key params)
    (if isEmpty (gi_algorithm params) then None
     else Some (toAlgorithm (gi_algorithm params)))
    (or_undefined (gi_extractable params))
    (unless_falsy (gi_keyUsages params)) = (Ok found, ks') ->
  let pid := gi_providerID params in
  let r := onMessage session a w in
  match found with
  | Some key =>
      let it := mkItem (newItemId (built w) key pid) pid
                  (fresh (dom (heap w))) in
      memoryStorage r.2 = <[id it := it]> (memoryStorage w) /\
      heap r.2 !! item it = Some key /\
      r.1 = match toProto_exportProto it key with
            | Ok d => Ok {| r_actionId := actionId a; r_action := action a;
                            data := Some d |}
            | Throw e => Throw e
            end /\
      trace r.2 =
        trace w ++ [EvImportProto (action a); EvGetCrypto pid;
                    EvKeyStorage pid (getItem_call params);
                    EvMemoryAdd (id it); EvExportProto (id it)]
  | None =>
      memoryStorage r.2 = memoryStorage w /\
      heap r.2 = heap w /\
      r.1 = Ok {| r_actionId := actionId a; r_action := action a;
                  data := None |}
  end.
Proof.
  intros Hsw Himp Hp Hks pid r. subst r pid.
  run. rewrite Hsw, Himp. cbn. rewrite Hp. cbn. rewrite Hp. cbn.
  rewrite Hks. destruct found as [key|]; cbn.
  - rewrite lookup_insert_eq. cbn.
    destruct (toProto_exportProto _ key); cbn.
    all: repeat split; rewrite ?lookup_insert_eq, <- ?app_assoc; reflexivity.
  - repeat split; reflexivity.
Qed.


(** What [SetItem] does once the handle and the provider are found: the
    live key is converted, and [setItem] is called on the converted key,
    with the pin options exactly when the provider is a [PvCrypto]. *)
Lemma setItem_run session a w params it k p :
  switch (action a) = CaseSetItem ->
  SetItem_importProto a = Ok params ->
  memoryStorage w !! ip_item_id params = Some it ->
  heap w !! item it = Some k ->
  providers w !! ip_providerID params = Some p ->
  let pid := ip_providerID params in
  let options :=
    match class p with
    | PvCrypto => Some (pin_options session (converted k))
    | _ => None
    end in
  let reply := ks_setItem (class p) (keyStorage p) (converted k) options in
  onMessage session a w =
    (match reply.1 with
     | Ok index => Ok (set_data (new_ResultProto a) (FromUtf8String index))
     | Throw e => Throw e
     end,
     {| providers := <[pid := mkProvider (class p) reply.2]> (providers w);
        heap := <[item it := converted k]> (heap w);
        memoryStorage := memoryStorage w;
        built := built w;
        trace := trace w ++
                 [EvImportProto (action a); EvMemoryItem (ip_item_id params);
                  EvGetCrypto pid] ++
                 match algorithm k with
                 | ConvertibleAlgorithm _ => [EvSetAlgorithm (item it)]
                 | PlainAlgorithm _ => []
                 end ++
                 [EvKeyStorage pid (CallSetItem (converted k) options)] |}).
Proof.
  intros Hsw Himp Hit Hk Hp pid options reply. subst reply options pid.
  run. rewrite Hsw, Himp. cbn. rewrite Hit. cbn. rewrite Hp. cbn.
  rewrite Hk. cbn. unfold converted, instanceof_PvCrypto.
  assert (Hal : forall f, alter f (item it) (heap w)
                          = <[item it := f k]> (heap w)).
  { intros f. apply map_eq. intros i.
    destruct (decide (item it = i)) as [<-|Hne].
    - by rewrite lookup_alter_eq, lookup_insert_eq, Hk.
    - by rewrite lookup_alter_ne, lookup_insert_ne. }
  assert (Hid : <[item it := k]> (heap w) = heap w) by (by apply insert_id).
  destruct (algorithm k) as [alg|ap] eqn:Halg; cbn;
    rewrite ?lookup_alter_eq, Hk; cbn;
    destruct (class p) eqn:Hc; cbn; rewrite Hp; cbn; rewrite Hc;
    match goal with
    | |- context [ks_setItem ?c ?s ?key ?o] =>
        destruct (ks_setItem c s key o) as [[index|e] ks']
    end; cbn; rewrite <- ?app_assoc, ?Hal, ?Hid; reflexivity.
Qed.

(** C10. When the key a [SetItem] action names has an [algorithm] that
    carries [toAlgorithm], the live object the handle refers to has its
    [algorithm] overwritten with the conversion; this happens before the
    key is persisted, it is the converted key that is persisted, and it
    happens whatever [setItem] answers.  The other fields of the key, the
    other live objects and the memory storage are left as they were. *)
Theorem setItem_converts_algorithm_in_place session a w params it k p ap :
  switch (action a) = CaseSetItem ->
  SetItem_importProto a = Ok params ->
  memoryStorage w !! ip_item_id params = Some it ->
  heap w !! item it = Some k ->
  providers w !! ip_providerID params = Some p ->
  algorithm k = ConvertibleAlgorithm ap ->
  let w' := (onMessage session a w).2 in
  let k' := {| algorithm := PlainAlgorithm (toAlgorithm ap); type := type k;
               extractable := extractable k; usages := usages k;
               native := native k |} in
  heap w' !! item it = Some k' /\
  (forall l, l <> item it -> heap w' !! l = heap w !! l) /\
  memoryStorage w' = memoryStorage w /\
  exists options,
    trace w' =
      trace w ++ [EvImportProto (action a); EvMemoryItem (ip_item_id params);
                  EvGetCrypto (ip_providerID params);
                  EvSetAlgorithm (item it);
                  EvKeyStorage (ip_providerID params) (CallSetItem k' options)].
Proof.
  intros Hsw Himp Hit Hk Hp Halg w' k'. subst w'.
  rewrite (setItem_run session a w params it k p Hsw Himp Hit Hk Hp).
  cbn [snd heap memoryStorage trace].
  assert (Hc : converted k = k') by (unfold converted; rewrite Halg; reflexivity).
  rewrite Hc, Halg.
  split; [apply lookup_insert_eq|].
  split; [intros l Hl; by apply lookup_insert_ne|].
  split; [reflexivity|].
  eexists. reflexivity.
Qed.

(** [SetItem] asks the memory storage for the handle before it resolves
    the provider: with an unknown handle the handler stops there, and the
    directory is never consulted. *)
Lemma setItem_handle_before_provider session a w params :
  switch (action a) = CaseSetItem ->
  SetItem_importProto a = Ok params ->
  memoryStorage w !! ip_item_id params = None ->
  onMessage session a w =
    (Throw (mkError HANDLE_NOT_FOUND
              ("Cannot get crypto item by ID '" ++ ip_item_id params ++ "'")%string),
     {| providers := providers w; heap := heap w;
        memoryStorage := memoryStorage w; built := built w;
        trace := trace w ++ [EvImportProto (action a);
                             EvMemoryItem (ip_item_id params)] |}).
Proof.
  intros Hsw Himp Hit. run. rewrite Hsw, Himp. cbn. rewrite Hit.
  rewrite <- !app_assoc. reflexivity.
Qed.

(** [IndexOf], which also names a handle, resolves the provider first. *)
Lemma indexOf_provider_before_handle session a w params :
  switch (action a) = CaseIndexOf ->
  IndexOf_importProto a = Ok params ->
  providers w !! ip_providerID params = None ->
  onMessage session a w =
    (Throw (mkError PROVIDER_NOT_FOUND
              ("Cannot get crypto by given ID '" ++ ip_providerID params ++ "'")%string),
     {| providers := providers w; heap := heap w;
        memoryStorage := memoryStorage w; built := built w;
        trace := trace w ++ [EvImportProto (action a);
                             EvGetCrypto (ip_providerID params)] |}).
Proof.
  intros Hsw Himp Hp. run. rewrite Hsw, Himp. cbn. rewrite Hp.
  rewrite <- !app_assoc. reflexivity.
Qed.

(** So do the four cases that name no handle. *)
Lemma getItem_provider_first session a w params :
  switch (action a) = CaseGetItem ->
  GetItem_importProto a = Ok params ->
  providers w !! gi_providerID params = None ->
  (onMessage session a w).1 =
    Throw (mkError PROVIDER_NOT_FOUND
             ("Cannot get crypto by given ID '" ++ gi_providerID params ++ "'")%string)
  /\ trace (onMessage session a w).2 =
       trace w ++ [EvImportProto (action a); EvGetCrypto (gi_providerID params)].
Proof.
  intros Hsw Himp Hp. run. rewrite Hsw, Himp. cbn. rewrite Hp. cbn.
  rewrite <- !app_assoc. split; reflexivity.
Qed.

Lemma removeItem_provider_first session a w params :
  switch (action a) = CaseRemoveItem ->
  RemoveItem_importProto a = Ok params ->
  providers w !! ri_providerID params = None ->
  (onMessage session a w).1 =
    Throw (mkError PROVIDER_NOT_FOUND
             ("Cannot get crypto by given ID '" ++ ri_providerID params ++ "'")%string)
  /\ trace (onMessage session a w).2 =
       trace w ++ [EvImportProto (action a); EvGetCrypto (ri_providerID params)].
Proof.
  intros Hsw Himp Hp. run. rewrite Hsw, Himp. cbn. rewrite Hp. cbn.
  rewrite <- !app_assoc. split; reflexivity.
Qed.

Lemma keys_provider_first session a w params :
  switch (action a) = CaseKeys ->
  Keys_importProto a = Ok params ->
  providers w !! pp_providerID params = None ->
  (onMessage session a w).1 =
    Throw (mkError PROVIDER_NOT_FOUND
             ("Cannot get crypto by given ID '" ++ pp_providerID params ++ "'")%string)
  /\ trace (onMessage session a w).2 =
       trace w ++ [EvImportProto (action a); EvGetCrypto (pp_providerID params)].
Proof.
  intros Hsw Himp Hp. run. rewrite Hsw, Himp. cbn. rewrite Hp. cbn.
  rewrite <- !app_assoc. split; reflexivity.
Qed.

Lemma clear_provider_first session a w params :
  switch (action a) = CaseClear ->
  Clear_importProto a = Ok params ->
  providers w !! pp_providerID params = None ->
  (onMessage session a w).1 =
    Throw (mkError PROVIDER_NOT_FOUND
             ("Cannot get crypto by given ID '" ++ pp_providerID params ++ "'")%string)
  /\ trace (onMessage session a w).2 =
       trace w ++ [EvImportProto (action a); EvGetCrypto (pp_providerID params)].
Proof.
  intros Hsw Himp Hp. run. rewrite Hsw, Himp. cbn. rewrite Hp. cbn.
  rewrite <- !app_assoc. split; reflexivity.
Qed.

(** C2, as the code has it.  [SetItem] tests the resolved provider with
    [instanceof PvCrypto]: a [PvCrypto] is given the pin options, built
    from the session's origin and the key's usages; every other provider
    is given the key alone.  Nothing else of the handling looks at the
    class. *)
Theorem setItem_pin_options_for_PvCrypto_only session a w params it k p :
  switch (action a) = CaseSetItem ->
  SetItem_importProto a = Ok params ->
  memoryStorage w !! ip_item_id params = Some it ->
  heap w !! item it = Some k ->
  providers w !! ip_providerID params = Some p ->
  let r := onMessage session a w in
  let options :=
    match class p with
    | PvCrypto =>
        Some {| pinFriendlyName := headers_origin session;
                pinDescription := join ", " (usages (converted k)) |}
    | _ => None
    end in
  last (trace r.2) =
    Some (EvKeyStorage (ip_providerID params)
            (CallSetItem (converted k) options)) /\
  r.1 = match (ks_setItem (class p) (keyStorage p) (converted k) options).1 with
        | Ok index => Ok (set_data (new_ResultProto a) (FromUtf8String index))
        | Throw e => Throw e
        end.
Proof.
  intros Hsw Himp Hit Hk Hp r options. subst r.
  rewrite (setItem_run session a w params it k p Hsw Himp Hit Hk Hp).
  cbn [fst snd trace].
  subst options. unfold pin_options. split; [|reflexivity].
  rewrite !app_assoc. apply last_snoc.
Qed.

End Facts.

(** ** The statements above at the sample platform *)

Lemma unowned_action_not_implemented_witness :
  (action Sample.sign_h1 ∉ @owned Sample.platform Sample.collaborators) /\
  Sample.onMessage Sample.session Sample.sign_h1 (Sample.world PvCrypto) =
    (Throw (mkError ACTION_NOT_IMPLEMENTED
              "Action 'crypto/subtle/sign' is not implemented"),
     Sample.world PvCrypto).
Proof.
  assert (Hn : action Sample.sign_h1
               ∉ @owned Sample.platform Sample.collaborators).
  { apply (bool_decide_unpack _). vm_compute. reflexivity. }
  split; [exact Hn|].
  exact (@unowned_action_not_implemented _ Sample.collaborators
           Sample.session Sample.sign_h1 (Sample.world PvCrypto) Hn).
Defined.

Lemma getItem_registers_before_result_witness :
  let r := Sample.onMessage Sample.session Sample.getItem_aes
             (Sample.world PvCrypto) in
  memoryStorage r.2 !! "ossl-1" = Some (mkItem "ossl-1" "ossl" 1) /\
  heap r.2 !! 1 = Some (Sample.stored_key 3) /\
  r.1 = Ok {| r_actionId := "1"; r_action := "crypto/keyStorage/getItem";
              data := Some (FromUtf8String "ossl-1") |} /\
  trace r.2 =
    [EvImportProto "crypto/keyStorage/getItem"; EvGetCrypto "ossl";
     EvKeyStorage "ossl" (CallGetItem "aes" None None None);
     EvMemoryAdd "ossl-1"; EvExportProto "ossl-1"].
Proof.
  pose proof (@getItem_registers_before_result _ Sample.collaborators
                Sample.session Sample.getItem_aes (Sample.world PvCrypto)
                (@mkGetItem Sample.platform "ossl" "aes" None (Some false) None)
                (@mkProvider Sample.platform OpenSSLCrypto [("aes", 3)])
                (Some (Sample.stored_key 3)) [("aes", 3)]
                eq_refl eq_refl eq_refl eq_refl) as T.
  cbv zeta in T. destruct T as (Hm & Hh & Hr & Ht).
  cbv zeta. unfold Sample.onMessage. rewrite Hm, Hr, Ht.
  split; [vm_compute; reflexivity|]. split; [exact Hh|].
  split; reflexivity.
Defined.


Lemma setItem_converts_algorithm_in_place_witness :
  heap (Sample.onMessage Sample.session Sample.setItem_h1
          (Sample.world PvCrypto)).2 !! 0 =
    Some (@mkCryptoKey Sample.platform
            (@PlainAlgorithm Sample.platform "RSA-PSS")
            private false ["sign"] 7).
Proof.
  exact (proj1 (@setItem_converts_algorithm_in_place _ Sample.collaborators
                  Sample.session Sample.setItem_h1 (Sample.world PvCrypto)
                  (mkItemParams "token" "h1") (mkItem "h1" "token" 0)
                  Sample.rsa_key (@mkProvider Sample.platform PvCrypto [])
                  (Some "RSA-PSS")
                  eq_refl eq_refl eq_refl eq_refl eq_refl eq_refl)).
Defined.

(** C1. A [SetItem] action that names an unknown provider and an unknown
    handle is refused for the handle: the memory storage is asked first and
    the directory is never consulted.  The same parameters under [IndexOf]
    are refused for the provider. *)
Theorem setItem_resolves_handle_before_provider :
  providers (Sample.world PvCrypto) !! "ghost" = None /\
  (Sample.onMessage Sample.session Sample.setItem_ghost
     (Sample.world PvCrypto)).1 =
    Throw (mkError HANDLE_NOT_FOUND "Cannot get crypto item by ID 'nope'") /\
  trace (Sample.onMessage Sample.session Sample.setItem_ghost
           (Sample.world PvCrypto)).2 =
    [EvImportProto "crypto/keyStorage/setItem"; EvMemoryItem "nope"] /\
  (Sample.onMessage Sample.session Sample.indexOf_ghost
     (Sample.world PvCrypto)).1 =
    Throw (mkError PROVIDER_NOT_FOUND "Cannot get crypto by given ID 'ghost'") /\
  trace (Sample.onMessage Sample.session Sample.indexOf_ghost
           (Sample.world PvCrypto)).2 =
    [EvImportProto "crypto/keyStorage/indexOf"; EvGetCrypto "ghost"].
Proof.
  split; [reflexivity|].
  unfold Sample.onMessage.
  rewrite (@setItem_handle_before_provider _ Sample.collaborators
             Sample.session Sample.setItem_ghost (Sample.world PvCrypto)
             (mkItemParams "ghost" "nope") eq_refl eq_refl eq_refl).
  rewrite (@indexOf_provider_before_handle _ Sample.collaborators
             Sample.session Sample.indexOf_ghost (Sample.world PvCrypto)
             (mkItemParams "ghost" "nope") eq_refl eq_refl eq_refl).
  repeat split; reflexivity.
Qed.

(** C2, the claim as stated, fails: the same [SetItem] request, against two
    worlds that differ only in the class of the provider it names, makes
    the service call [setItem] with different arguments. *)
Lemma setItem_handling_differs_by_provider_class :
  trace (Sample.onMessage Sample.session Sample.setItem_h1
           (Sample.world PvCrypto)).2 <>
  trace (Sample.onMessage Sample.session Sample.setItem_h1
           (Sample.world OpenSSLCrypto)).2.
Proof. vm_compute. discriminate. Qed.

Lemma setItem_pin_options_for_PvCrypto_only_witness :
  last (trace (Sample.onMessage Sample.session Sample.setItem_h1
                 (Sample.world PvCrypto)).2) =
    Some (EvKeyStorage "token"
            (CallSetItem
               (@mkCryptoKey Sample.platform
                  (@PlainAlgorithm Sample.platform "RSA-PSS")
                  private false ["sign"] 7)
               (Some (mkPin "https://example.org" "sign")))).
Proof.
  exact (proj1 (@setItem_pin_options_for_PvCrypto_only _ Sample.collaborators
                  Sample.session Sample.setItem_h1 (Sample.world PvCrypto)
                  (mkItemParams "token" "h1") (mkItem "h1" "token" 0)
                  Sample.rsa_key (@mkProvider Sample.platform PvCrypto [])
                  eq_refl eq_refl eq_refl eq_refl eq_refl)).
Defined.

End KeyStorageFacts.

(** * Properties of [SubtleCrypto] *)

Module SubtleFacts.
Import Subtle.
#[local] Open Scope list_scope.

Section Facts.
Context `{Collaborators}.

Ltac run :=
  unfold deriveBits, digest, generateKey, send, native_digest, console_warn,
    importKeyPair, importKey, try_catch, bind, lift, log, ret;
  cbn [fst snd].

Lemma checkPrimitive_negative (n : Z) paramName :
  (n < 0)%Z ->
  checkPrimitive (VNumber n) "number" paramName =
    Throw (mkError BAD_PARAMETERS (paramName ++ ": Must not be negative")%string).
Proof.
  intros Hn. unfold checkPrimitive. cbn.
  destruct (Z.ltb_spec n 0); [reflexivity|lia].
Qed.

Lemma checkPrimitive_nonnegative (n : Z) paramName :
  (0 <= n)%Z -> checkPrimitive (VNumber n) "number" paramName = Ok tt.
Proof.
  intros Hn. unfold checkPrimitive. cbn.
  destruct (Z.ltb_spec n 0); [lia|reflexivity].
Qed.

(** C7. [deriveBits] with a negative [length] is refused before anything
    is sent, and, the checks before it passing, with a bad-parameters
    error on [length]; a non-negative [length] passes the check and the
    request goes on to be prepared and sent. *)
Theorem deriveBits_refuses_negative_length this algorithm baseKey (n : Z) t :
  checkAlgorithm algorithm "algorithm" = Ok tt ->
  checkCryptoKey (VKey baseKey) "baseKey" = Ok tt ->
  ((n < 0)%Z ->
   deriveBits this algorithm baseKey (VNumber n) t =
     (Throw (mkError BAD_PARAMETERS "length: Must not be negative"), t)) /\
  ((0 <= n)%Z ->
   checkPrimitive (VNumber n) "number" "length" = Ok tt /\
   forall algProto,
     checkCryptoKey (VAlgorithmProto (prepareAlgorithm algorithm))
       "algorithm.public" = Ok tt ->
     export_public (prepareAlgorithm algorithm) = Ok algProto ->
     let action :=
       DeriveBitsActionProto (id this) algProto baseKey (VNumber n) in
     deriveBits this algorithm baseKey (VNumber n) t =
       (client_send action, t ++ [EvSend action])).
Proof.
  intros Halg Hkey. split.
  - intros Hn. run. rewrite Halg, Hkey.
    rewrite (checkPrimitive_negative n "length" Hn). reflexivity.
  - intros Hn. split; [by apply checkPrimitive_nonnegative|].
    intros algProto Hpub Hexp action. run. rewrite Halg, Hkey.
    rewrite (checkPrimitive_nonnegative n "length" Hn), Hpub, Hexp.
    by destruct (client_send _).
Qed.

(** A negative [length] never reaches the service, whatever the earlier
    checks answer. *)
Lemma deriveBits_negative_never_sent this algorithm baseKey (n : Z) t :
  (n < 0)%Z ->
  exists e, deriveBits this algorithm baseKey (VNumber n) t = (Throw e, t).
Proof.
  intros Hn. run.
  destruct (checkAlgorithm _ _) as [[]|e1]; [|by eexists].
  destruct (checkCryptoKey _ _) as [[]|e2]; [|by eexists].
  rewrite (checkPrimitive_negative n "length" Hn). by eexists.
Qed.

(** C6. [generateKey] first reads the answer as a key pair and returns the
    pair when that succeeds, without trying the other shape; exactly when
    the pair reading fails, it reads the answer as a single key, and what
    it returns is that reading: the error of the pair reading is never
    raised.  An answer of either shape is returned, not refused. *)
Theorem generateKey_pair_then_single this algorithm extractable keyUsages
    t result :
  checkAlgorithm algorithm "algorithm" = Ok tt ->
  checkPrimitive extractable "boolean" "extractable" = Ok tt ->
  checkArray keyUsages "keyUsages" = Ok tt ->
  let action :=
    GenerateKeyActionProto (id this) (prepareAlgorithm algorithm)
      extractable keyUsages in
  client_send action = Ok result ->
  (forall pair,
     CryptoKeyPairProto_importProto result = Ok pair ->
     generateKey this algorithm extractable keyUsages t =
       (Ok (KeyPair pair), t ++ [EvSend action; EvImportKeyPair result])) /\
  (forall e,
     CryptoKeyPairProto_importProto result = Throw e ->
     generateKey this algorithm extractable keyUsages t =
       (match CryptoKeyProto_importProto result with
        | Ok key => Ok (SingleKey key)
        | Throw e' => Throw e'
        end,
        t ++ [EvSend action; EvImportKeyPair result; EvImportKey result])) /\
  ((exists pair, CryptoKeyPairProto_importProto result = Ok pair) \/
   (exists key, CryptoKeyProto_importProto result = Ok key) ->
   exists g, (generateKey this algorithm extractable keyUsages t).1 = Ok g).
Proof.
  intros Halg Hext Hus action Hsend.
  assert (Hpair : forall pair,
            CryptoKeyPairProto_importProto result = Ok pair ->
            generateKey this algorithm extractable keyUsages t =
              (Ok (KeyPair pair), t ++ [EvSend action; EvImportKeyPair result])).
  { intros pair Hp. run. rewrite Halg, Hext, Hus. fold action.
    rewrite Hsend, Hp. rewrite <- app_assoc. reflexivity. }
  assert (Hsingle : forall e,
            CryptoKeyPairProto_importProto result = Throw e ->
            generateKey this algorithm extractable keyUsages t =
              (match CryptoKeyProto_importProto result with
               | Ok key => Ok (SingleKey key)
               | Throw e' => Throw e'
               end,
               t ++ [EvSend action; EvImportKeyPair result; EvImportKey result])).
  { intros e Hp. run. rewrite Halg, Hext, Hus. fold action.
    rewrite Hsend, Hp.
    destruct (CryptoKeyProto_importProto result);
      rewrite <- !app_assoc; reflexivity. }
  split; [exact Hpair|]. split; [exact Hsingle|].
  intros [[pair Hp]|[key Hk]].
  - rewrite (Hpair pair Hp). by eexists.
  - destruct (CryptoKeyPairProto_importProto result) as [pair|e] eqn:Hp.
    + rewrite (Hpair pair eq_refl). by eexists.
    + rewrite (Hsingle e eq_refl), Hk. by eexists.
Qed.

(** The routing of [digest], as the source has it. *)
Lemma digest_routing this algorithm data t :
  checkAlgorithm algorithm "algorithm" = Ok tt ->
  checkBufferSource data "data" = Ok tt ->
  let raw := toArrayBuffer data in
  let action := DigestActionProto (prepareAlgorithm algorithm) raw (id this) in
  (forall subtle r,
     subtle algorithm raw = Ok r ->
     digest this (mkSelf (Some subtle)) algorithm data t =
       (Ok r, t ++ [EvNativeDigest algorithm raw])) /\
  (forall subtle e,
     subtle algorithm raw = Throw e ->
     digest this (mkSelf (Some subtle)) algorithm data t =
       (client_send action,
        t ++ [EvNativeDigest algorithm raw;
              EvWarn ("Cannot do native digest for algorithm '"
                      ++ name (prepareAlgorithm algorithm) ++ "'")%string;
              EvSend action])) /\
  digest this (mkSelf None) algorithm data t =
    (client_send action, t ++ [EvSend action]).
Proof.
  intros Halg Hdata raw action. repeat split.
  - intros subtle r Hr. run. rewrite Halg, Hdata. cbn. fold raw. by rewrite Hr.
  - intros subtle e He. run. rewrite Halg, Hdata. cbn. fold raw. rewrite He.
    fold action. destruct (client_send action); rewrite <- !app_assoc;
      reflexivity.
  - run. rewrite Halg, Hdata. cbn. fold raw action.
    by destruct (client_send action).
Qed.

(** C5.  Once the arguments have passed the checks, [digest] asks the
    in-process capability first and, when it answers, returns its bytes
    and sends nothing: no provider is consulted.  Only when [self.crypto]
    is absent, or the attempt of the capability fails (a warning is
    written then), is the action sent, and the answer of the service
    returned.  Where no [self] is declared at all, reading it throws, and
    [digest] throws that error with nothing sent.  [digest] hands the
    capability and the service the same algorithm and the same bytes and
    returns what they answer unchanged; digest being a function of the
    algorithm and the data, [D], that both compute, the bytes of the fast
    path are those of the fallback path. *)
Theorem digest_local_first_same_bytes this algorithm data t subtle :
  checkAlgorithm algorithm "algorithm" = Ok tt ->
  checkBufferSource data "data" = Ok tt ->
  let raw := toArrayBuffer data in
  let action := DigestActionProto (prepareAlgorithm algorithm) raw (id this) in
  let fast := digest this (mkSelf (Some subtle)) algorithm data t in
  let fallback := digest this (mkSelf None) algorithm data t in
  (forall r, subtle algorithm raw = Ok r ->
     fast = (Ok r, t ++ [EvNativeDigest algorithm raw])) /\
  (forall e, subtle algorithm raw = Throw e ->
     fast = (client_send action,
             t ++ [EvNativeDigest algorithm raw;
                   EvWarn ("Cannot do native digest for algorithm '"
                           ++ name (prepareAlgorithm algorithm) ++ "'")%string;
                   EvSend action])) /\
  fallback = (client_send action, t ++ [EvSend action]) /\
  (forall error,
     digest this (Undeclared error) algorithm data t = (Throw error, t)) /\
  (forall D : AlgorithmIdentifier -> ArrayBuffer -> ArrayBuffer,
     (forall b, subtle algorithm raw = Ok b -> b = D algorithm raw) ->
     (forall b, client_send action = Ok b -> b = D algorithm raw) ->
     forall r r', fast.1 = Ok r -> fallback.1 = Ok r' -> r = r').
Proof.
  intros Halg Hdata raw action fast fallback.
  destruct (digest_routing this algorithm data t Halg Hdata)
    as (Hfast & Hwarn & Hnone).
  fold raw action in Hfast, Hwarn, Hnone. fold fallback in Hnone.
  split; [intros r Hr; exact (Hfast subtle r Hr)|].
  split; [intros e He; exact (Hwarn subtle e He)|].
  split; [exact Hnone|].
  split.
  { intros error. run. rewrite Halg, Hdata. reflexivity. }
  intros D Hnative Hservice r r' Hr Hr'. rewrite Hnone in Hr'. cbn in Hr'.
  rewrite (Hservice r' Hr').
  destruct (subtle algorithm raw) as [b|e] eqn:Hs.
  - subst fast. rewrite (Hfast subtle b Hs) in Hr. cbn in Hr.
    injection Hr as <-. by apply Hnative.
  - subst fast. rewrite (Hwarn subtle e Hs) in Hr. cbn in Hr.
    by apply Hservice.
Qed.

End Facts.

(** ** The statements above at the sample platform *)

Lemma deriveBits_refuses_negative_length_witness :
  Sample.deriveBits Sample.this "ECDH" "k1" (VNumber (-8)) [] =
    (Throw (mkError BAD_PARAMETERS "length: Must not be negative"), []) /\
  @checkPrimitive Sample.platform Sample.client_types (VNumber 256)
    "number" "length" = Ok tt.
Proof.
  split.
  - exact (proj1 (@deriveBits_refuses_negative_length _ _ Sample.client
                    Sample.this "ECDH" "k1" (-8)%Z [] eq_refl eq_refl)
             ltac:(lia)).
  - exact (proj1 (proj2 (@deriveBits_refuses_negative_length _ _ Sample.client
                           Sample.this "ECDH" "k1" 256%Z [] eq_refl eq_refl)
                    ltac:(lia))).
Defined.

Lemma generateKey_pair_then_single_witness :
  (Sample.generateKey Sample.this "RSA-PSS" (VBoolean false) ["sign"] []).1 =
    Ok (@KeyPair Sample.client_types ("k1.private", "k1.public")) /\
  (Sample.generateKey Sample.this "AES-GCM" (VBoolean false) ["encrypt"] []).1 =
    Ok (@SingleKey Sample.client_types "k2").
Proof.
  split.
  - pose proof (proj1 (@generateKey_pair_then_single _ _ Sample.client
                         Sample.this "RSA-PSS" (VBoolean false) ["sign"] []
                         (Sample.bytes "pair;k1")
                         eq_refl eq_refl eq_refl eq_refl)
                  ("k1.private", "k1.public") eq_refl) as T.
    unfold Sample.generateKey. rewrite T. reflexivity.
  - pose proof (proj1 (proj2 (@generateKey_pair_then_single _ _ Sample.client
                         Sample.this "AES-GCM" (VBoolean false) ["encrypt"] []
                         (Sample.bytes "key;k2")
                         eq_refl eq_refl eq_refl eq_refl))
                  (mkError BAD_PARAMETERS "Cannot parse the message")
                  eq_refl) as T.
    unfold Sample.generateKey. rewrite T. reflexivity.
Defined.

(** An answer of neither shape: the error raised is the one of the
    single-key reading, after both readings were tried. *)
Example generateKey_neither_shape :
  Sample.generateKey Sample.this "HMAC" (VBoolean true) ["sign"] [] =
    (Throw (mkError BAD_PARAMETERS "Cannot parse the message"),
     [EvSend (@GenerateKeyActionProto Sample.platform Sample.client_types
                "token" (Some "HMAC") (VBoolean true) ["sign"]);
      EvImportKeyPair (Sample.bytes "neither");
      EvImportKey (Sample.bytes "neither")]).
Proof. reflexivity. Qed.

(** With a failing in-process capability the request falls back to the
    service, after a warning. *)
Example digest_falls_back_on_failure :
  Sample.digest Sample.this Sample.self_failing "SHA-256" Sample.abc [] =
    (Ok (Sample.bytes "cba"),
     [@EvNativeDigest Sample.platform Sample.client_types "SHA-256" Sample.abc;
      EvWarn "Cannot do native digest for algorithm 'SHA-256'";
      EvSend (@DigestActionProto Sample.platform Sample.client_types
                (Some "SHA-256") Sample.abc "token")]).
Proof. reflexivity. Qed.

(** Where no [self] is declared, the service is never asked. *)
Example digest_undeclared_self :
  Sample.digest Sample.this Sample.self_undeclared "SHA-256" Sample.abc [] =
    (Throw Sample.reference_error, []).
Proof. reflexivity. Qed.

Lemma digest_local_first_same_bytes_witness :
  Sample.digest Sample.this Sample.self_same "SHA-256" Sample.abc [] =
    (Ok (Sample.bytes "cba"),
     [@EvNativeDigest Sample.platform Sample.client_types
        "SHA-256" Sample.abc]) /\
  Sample.digest Sample.this Sample.self_none "SHA-256" Sample.abc [] =
    (Ok (Sample.bytes "cba"),
     [EvSend (@DigestActionProto Sample.platform Sample.client_types
               (Some "SHA-256") Sample.abc "token")]) /\
  Sample.digest Sample.this Sample.self_undeclared "SHA-256" Sample.abc [] =
    (Throw Sample.reference_error, []) /\
  (forall r r',
     (Sample.digest Sample.this Sample.self_same "SHA-256" Sample.abc []).1
       = Ok r ->
     (Sample.digest Sample.this Sample.self_none "SHA-256" Sample.abc []).1
       = Ok r' ->
     r = r').
Proof.
  pose proof (@digest_local_first_same_bytes _ _ Sample.client
                Sample.this "SHA-256" Sample.abc [] Sample.native_same
                eq_refl eq_refl)
    as (Hfast & _ & Hfallback & Hundeclared & Hsame).
  split; [exact (Hfast _ eq_refl)|].
  split; [exact Hfallback|].
  split; [exact (Hundeclared Sample.reference_error)|].
  apply (Hsame (fun _ data => rev data)).
  - intros b Hb.
    exact (eq_sym (f_equal (fun o => match o with
                                     | Ok x => x
                                     | Throw _ => b
                                     end) Hb)).
  - intros b Hb.
    exact (eq_sym (f_equal (fun o => match o with
                                     | Ok x => x
                                     | Throw _ => b
                                     end) Hb)).
Defined.

End SubtleFacts.

(** * Properties of the codec *)

Module CodecFacts.
Import Codec.
#[local] Open Scope list_scope.

(** Fields the schema knows and that are well-typed are all kept. *)
Lemma decode_fields_known (s : gmap nat FieldSpec) (m : Message) :
  Forall (fun f => ftype <$> s !! f.1 = Some (type_of f.2)) m ->
  decode_fields s m = Ok (list_to_map m).
Proof.
  induction 1 as [|[i v] m Hf _ IH]; [reflexivity|].
  cbn in *. rewrite IH.
  destruct (s !! i) as [f|]; [|discriminate].
  cbn in Hf. injection Hf as Hf. rewrite decide_True by done. reflexivity.
Qed.

(** A field the schema does not know changes nothing, wherever it stands. *)
Lemma decode_fields_skip (s : gmap nat FieldSpec) (m1 m2 : Message) i v :
  s !! i = None ->
  decode_fields s (m1 ++ (i, v) :: m2) = decode_fields s (m1 ++ m2).
Proof.
  intros Hi. induction m1 as [|[j u] m1 IH]; cbn.
  - rewrite Hi. by destruct (decode_fields s m2).
  - by rewrite IH.
Qed.

Lemma decode_fields_unknown_l (s : gmap nat FieldSpec) (extra m : Message) :
  Forall (fun f => s !! f.1 = None) extra ->
  decode_fields s (extra ++ m) = decode_fields s m.
Proof.
  induction 1 as [|[i v] extra Hi _ IH]; [reflexivity|].
  cbn in *. rewrite IH, Hi. by destruct (decode_fields s m).
Qed.

Lemma decode_fields_unknown_r (s : gmap nat FieldSpec) (m extra : Message) :
  Forall (fun f => s !! f.1 = None) extra ->
  decode_fields s (m ++ extra) = decode_fields s m.
Proof.
  intros He. induction m as [|[i v] m IH]; cbn.
  - rewrite <- (app_nil_r extra). by rewrite decode_fields_unknown_l.
  - by rewrite IH.
Qed.

Lemma conforms_filter (s : gmap nat FieldSpec) (x : gmap nat FieldValue) :
  conforms s x -> filter (fun f => is_Some (s !! f.1)) x = x.
Proof.
  intros [Hx _]. apply map_filter_id. intros i v Hi. cbn.
  specialize (Hx i v Hi). cbn in Hx.
  destruct (s !! i); [by eexists|discriminate].
Qed.

Lemma decode_fields_encode (s : gmap nat FieldSpec) (x : gmap nat FieldValue) :
  conforms s x -> decode_fields s (encode s x) = Ok x.
Proof.
  intros Hc. unfold encode. rewrite (conforms_filter s x Hc).
  rewrite decode_fields_known.
  - by rewrite list_to_map_to_list.
  - destruct Hc as [Hx _]. apply list.Forall_forall. intros [i v] Hin.
    apply elem_of_map_to_list in Hin. exact (Hx i v Hin).
Qed.

(** C8. For every schema and every value that conforms to it, decoding the
    encoding gives the value back; a field whose tag the schema does not
    know is ignored wherever it stands in a message, and a message that
    carries such fields around an encoding still decodes to the value. *)
Theorem decode_encode_ignoring_unknown (s : gmap nat FieldSpec)
    (x : gmap nat FieldValue) :
  conforms s x ->
  decode s (encode s x) = Ok x /\
  (forall (m1 m2 : Message) i v,
     s !! i = None -> decode s (m1 ++ (i, v) :: m2) = decode s (m1 ++ m2)) /\
  (forall before after : Message,
     Forall (fun f => s !! f.1 = None) before ->
     Forall (fun f => s !! f.1 = None) after ->
     decode s (before ++ encode s x ++ after) = Ok x).
Proof.
  intros Hc.
  assert (Hround : decode s (encode s x) = Ok x).
  { unfold decode. rewrite (decode_fields_encode s x Hc).
    rewrite decide_True; [reflexivity|exact (proj2 Hc)]. }
  split; [exact Hround|]. split.
  - intros m1 m2 i v Hi. unfold decode. by rewrite decode_fields_skip.
  - intros before after Hb Ha. unfold decode in *.
    by rewrite decode_fields_unknown_l, decode_fields_unknown_r.
Qed.

Lemma sample_conforms : conforms Sample.schema Sample.value.
Proof.
  split.
  - apply (bool_decide_unpack _). vm_compute. reflexivity.
  - apply (bool_decide_unpack _). vm_compute. reflexivity.
Defined.

Lemma decode_encode_ignoring_unknown_witness :
  conforms Sample.schema Sample.value /\
  decode Sample.schema (encode Sample.schema Sample.value) = Ok Sample.value /\
  decode Sample.schema
    ((9, FString "later") :: encode Sample.schema Sample.value
       ++ [(7, FUint 1)]) = Ok Sample.value.
Proof.
  split; [exact sample_conforms|].
  destruct (decode_encode_ignoring_unknown Sample.schema Sample.value
              sample_conforms) as (Hround & _ & Hextra).
  split; [exact Hround|].
  apply (Hextra [(9, FString "later")] [(7, FUint 1)]).
  - repeat constructor.
  - repeat constructor.
Defined.

(** A message that lacks a required field, or carries a field of the wrong
    type, is refused with a bad-parameters error. *)
Example decode_refuses_missing_required :
  decode Sample.schema [(1, FString "token")] =
    bad_parameters "required field is missing".
Proof. vm_compute. reflexivity. Qed.

Example decode_refuses_wrong_type :
  decode Sample.schema [(1, FString "token"); (2, FUint 0)] =
    bad_parameters "field of the wrong type".
Proof. vm_compute. reflexivity. Qed.

End CodecFacts.

(** * More properties of [KeyStorageService.onMessage] *)

Module KeyStorageMore.
Import KeyStorage KeyStorageAux.
#[local] Open Scope list_scope.

Section Facts.
Context `{Collaborators}.

Ltac run :=
  unfold onMessage, importProto, getCrypto, memoryStorage_item,
    memoryStorage_add, exportProto, deref, set_algorithm,
    new_ServiceCryptoItem, keyStorage_getItem, keyStorage_setItem,
    keyStorage_removeItem, keyStorage_keys, keyStorage_indexOf,
    keyStorage_clear, on_keyStorage, instanceof_PvCrypto,
    bind, lift, log, ret, throw;
  cbn [fst snd providers heap memoryStorage built trace crypto_id crypto_obj
       id providerID item class keyStorage].

(** Splits a run of the handler along every answer a collaborator can
    give. *)
Ltac tidy :=
  cbn [fst snd providers heap memoryStorage built trace crypto_id
       crypto_obj id providerID item class keyStorage default
       from_option data r_actionId r_action set_data new_ResultProto] in *.

Ltac answers :=
  repeat (tidy;
          match goal with
          | E : ?x = _ |- context [match ?x with _ => _ end] => rewrite E
          | E : ?x = _ |- context [default _ ?x] => rewrite E
          | |- context [match ?x with _ => _ end] =>
              lazymatch x with
              | context [match _ with _ => _ end] => fail
              | _ => destruct x eqn:?
              end
          end);
  tidy.

(** X1. A code is one of the six the service declares exactly when the
    [switch] has a case for it. *)
Theorem owned_iff_handled code : code ∈ owned <-> switch code <> CaseDefault.
Proof.
  split.
  - unfold owned, switch. intros Hin.
    rewrite !elem_of_cons, elem_of_nil in Hin.
    repeat case_decide; try discriminate. intuition congruence.
  - intros Hsw. destruct (decide (code ∈ owned)) as [Hin|Hn]; [exact Hin|].
    by apply KeyStorageFacts.switch_default in Hn.
Qed.

(** X2. Whatever the action and whatever the collaborators answer, the
    handler removes no entry of the memory storage, and only a [GetItem]
    enters one. *)
Theorem onMessage_keeps_memoryStorage session a w :
  (forall i, is_Some (memoryStorage w !! i) ->
             is_Some (memoryStorage (onMessage session a w).2 !! i)) /\
  (switch (action a) <> CaseGetItem ->
   memoryStorage (onMessage session a w).2 = memoryStorage w).
Proof.
  split.
  - intros i Hi. run. answers; try exact Hi.
    all: match goal with
         | |- is_Some (<[?k := _]> _ !! _) =>
             destruct (decide (k = i)) as [<-|Hne];
             [rewrite lookup_insert_eq; by eexists
             |by rewrite lookup_insert_ne]
         end.
  - intros Hsw. run. answers; try reflexivity; by destruct Hsw.
Qed.

(** X3. The handler keeps the provider directory: every provider stays
    under its id with its class, no id is added, and at most one provider,
    the one whose key storage is called, has anything changed. *)
Theorem onMessage_keeps_providers session a w :
  (forall pid p,
     providers w !! pid = Some p ->
     exists p', providers (onMessage session a w).2 !! pid = Some p' /\
                class p' = class p) /\
  (forall pid,
     providers w !! pid = None ->
     providers (onMessage session a w).2 !! pid = None) /\
  (exists touched, forall pid,
     pid <> touched ->
     providers (onMessage session a w).2 !! pid = providers w !! pid).
Proof.
  split; [|split].
  - intros pid p Hp. run. answers; eauto.
    all: match goal with
         | E : providers _ !! ?k = Some ?q |- context [<[?k := _]> _ !! _] =>
             destruct (decide (k = pid)) as [<-|Hne];
             [rewrite lookup_insert_eq; rewrite E in Hp;
              injection Hp as ->; eauto
             |rewrite lookup_insert_ne by done; eauto]
         end.
  - intros pid Hp. run. answers; try exact Hp.
    all: match goal with
         | E : providers _ !! ?k = Some ?q |- <[?k := _]> _ !! _ = None =>
             rewrite lookup_insert_ne; [exact Hp|];
             intros <-; rewrite E in Hp; discriminate
         end.
  - run. answers.
    all: try match goal with
         | |- exists t, forall pid, _ -> <[?k := _]> _ !! pid = _ =>
             exists k; intros pid Hne; by rewrite lookup_insert_ne
         end.
    all: exists ""; intros; reflexivity.
Qed.

(** X4. The handler drops no live key.  A key keeps its type, its
    extractability, its usages and its native part; outside [SetItem] it
    is left exactly as it was. *)
Theorem onMessage_keeps_live_keys session a w l k :
  heap w !! l = Some k ->
  exists k',
    heap (onMessage session a w).2 !! l = Some k' /\
    type k' = type k /\ extractable k' = extractable k /\
    usages k' = usages k /\ native k' = native k /\
    (switch (action a) <> CaseSetItem -> k' = k).
Proof.
  intros Hk.
  assert (Hfresh : fresh (dom (heap w)) <> l).
  { intros <-. apply (is_fresh (dom (heap w))).
    apply elem_of_dom. by eexists. }
  run. answers.
  all: try (exists k; rewrite ?lookup_insert_ne by done;
            repeat split; done).
  all: match goal with
       | |- context [alter _ ?j _ !! _] =>
           destruct (decide (j = l)) as [->|Hne];
           [rewrite lookup_alter_eq, Hk; eexists; repeat split; done
           |rewrite lookup_alter_ne by done; exists k; repeat split; done]
       end.
Qed.

(** X5. Whenever the handler answers, the result echoes the id and the
    code of the action it answers. *)
Theorem onMessage_result_echoes_action session a w r :
  (onMessage session a w).1 = Ok r ->
  r_actionId r = actionId a /\ r_action r = action a.
Proof.
  run. answers; intros Hr; try discriminate; injection Hr as <-;
    split; reflexivity.
Qed.

(** X6. A decoding error is the handler's error, and nothing has happened
    by then but the decoding: no provider is resolved, no handle looked
    up, no storage called. *)
Theorem decode_failure_stops_handler session a w e :
  named_provider a = Some (Throw e) ->
  onMessage session a w = (Throw e, logged w [EvImportProto (action a)]).
Proof.
  unfold named_provider, logged. intros Hn. run.
  destruct (switch (action a)); try discriminate;
    match goal with
    | |- context [match ?x with _ => _ end] => destruct x
    end; try discriminate; injection Hn as ->; reflexivity.
Qed.

(** In every case but [SetItem], a provider id that does not resolve
    stops the handler right after the decoding, with the directory's
    error: no handle is looked up and no storage is called. *)
Theorem unknown_provider_stops_handler session a w pid :
  switch (action a) <> CaseSetItem ->
  named_provider a = Some (Ok pid) ->
  providers w !! pid = None ->
  onMessage session a w =
    (Throw (mkError PROVIDER_NOT_FOUND
              ("Cannot get crypto by given ID '" ++ pid ++ "'")%string),
     logged w [EvImportProto (action a); EvGetCrypto pid]).
Proof.
  unfold named_provider, logged. intros Hsw Hn Hp. run.
  destruct (switch (action a)); try discriminate; try (by destruct Hsw);
    match goal with
    | |- context [match ?x with _ => _ end] => destruct x
    end; try discriminate; injection Hn as ->; cbn; rewrite Hp;
    rewrite <- !app_assoc; reflexivity.
Qed.

(** What [IndexOf] does once the provider and the handle are found. *)
Lemma indexOf_run session a w params p it k :
  switch (action a) = CaseIndexOf ->
  IndexOf_importProto a = Ok params ->
  providers w !! ip_providerID params = Some p ->
  memoryStorage w !! ip_item_id params = Some it ->
  heap w !! item it = Some k ->
  let pid := ip_providerID params in
  let reply := ks_indexOf (class p) (keyStorage p) k in
  onMessage session a w =
    (match reply.1 with
     | Ok (Some (String c s)) =>
         Ok (set_data (new_ResultProto a) (FromUtf8String (String c s)))
     | Ok _ => Ok (new_ResultProto a)
     | Throw e => Throw e
     end,
     {| providers := <[pid := mkProvider (class p) reply.2]> (providers w);
        heap := heap w; memoryStorage := memoryStorage w; built := built w;
        trace := trace w ++
                 [EvImportProto (action a); EvGetCrypto pid;
                  EvMemoryItem (ip_item_id params);
                  EvKeyStorage pid (CallIndexOf k)] |}).
Proof.
  intros Hsw Himp Hp Hit Hk pid reply. subst pid reply.
  run. rewrite Hsw, Himp. cbn. rewrite Hp. cbn. rewrite Hit. cbn.
  rewrite Hk. cbn. rewrite Hp. cbn.
  destruct (ks_indexOf _ _ k) as [[[[|c s]|]|e] ks']; cbn;
    rewrite <- !app_assoc; reflexivity.
Qed.

(** X7. [IndexOf] puts the index in the result only when the storage
    answers a non-empty one: an empty index is answered like no index at
    all, with no data.  The live key and the memory storage are left as
    they were. *)
Theorem indexOf_data_only_for_nonempty_index session a w params p it k
    index ks' :
  switch (action a) = CaseIndexOf ->
  IndexOf_importProto a = Ok params ->
  providers w !! ip_providerID params = Some p ->
  memoryStorage w !! ip_item_id params = Some it ->
  heap w !! item it = Some k ->
  ks_indexOf (class p) (keyStorage p) k = (Ok index, ks') ->
  (exists r, (onMessage session a w).1 = Ok r /\
     (data r = None <-> index = None \/ index = Some "") /\
     (forall i, index = Some i -> i <> "" ->
                data r = Some (FromUtf8String i))) /\
  heap (onMessage session a w).2 = heap w /\
  memoryStorage (onMessage session a w).2 = memoryStorage w.
Proof.
  intros Hsw Himp Hp Hit Hk Hks.
  rewrite (indexOf_run session a w params p it k Hsw Himp Hp Hit Hk).
  rewrite Hks. cbn [fst snd heap memoryStorage].
  split; [|split; reflexivity].
  destruct index as [[|c s]|]; eexists; (split; [reflexivity|]); cbn.
  - split; [split; [by right|done]|]. by intros i [= <-].
  - split; [split; [done|by intros [|]]|]. by intros i [= <-].
  - split; [split; [by left|done]|]. done.
Qed.

(** X8. [Clear] and [RemoveItem] touch the provider's storage and nothing
    else: the memory storage keeps every handle, those of the keys just
    cleared or removed included, and the result carries no data. *)
Theorem clear_and_removeItem_keep_handles session a w p ks' :
  (forall params,
     switch (action a) = CaseClear ->
     Clear_importProto a = Ok params ->
     providers w !! pp_providerID params = Some p ->
     ks_clear (class p) (keyStorage p) = (Ok tt, ks') ->
     onMessage session a w =
       (Ok (new_ResultProto a),
        {| providers := <[pp_providerID params := mkProvider (class p) ks']>
                          (providers w);
           heap := heap w; memoryStorage := memoryStorage w;
           built := built w;
           trace := trace w ++
                    [EvImportProto (action a);
                     EvGetCrypto (pp_providerID params);
                     EvKeyStorage (pp_providerID params) CallClear] |})) /\
  (forall params,
     switch (action a) = CaseRemoveItem ->
     RemoveItem_importProto a = Ok params ->
     providers w !! ri_providerID params = Some p ->
     ks_removeItem (class p) (keyStorage p) (ri_key params) = (Ok tt, ks') ->
     onMessage session a w =
       (Ok (new_ResultProto a),
        {| providers := <[ri_providerID params := mkProvider (class p) ks']>
                          (providers w);
           heap := heap w; memoryStorage := memoryStorage w;
           built := built w;
           trace := trace w ++
                    [EvImportProto (action a);
                     EvGetCrypto (ri_providerID params);
                     EvKeyStorage (ri_providerID params)
                       (CallRemoveItem (ri_key params))] |})).
Proof.
  split; intros params Hsw Himp Hp Hks; run; rewrite Hsw, Himp; cbn;
    rewrite Hp; cbn; rewrite Hp; cbn; rewrite Hks; cbn;
    rewrite <- !app_assoc; reflexivity.
Qed.

(** X9. When the provider's [getItem] fails, [GetItem] fails with the
    same error and registers nothing: no handle, no live key, no item
    built. *)
Theorem getItem_provider_failure_registers_nothing session a w params p e ks' :
  switch (action a) = CaseGetItem ->
  GetItem_importProto a = Ok params ->
  providers w !! gi_providerID params = Some p ->
  ks_getItem (class p) (keyStorage p) (gi_key params)
    (if isEmpty (gi_algorithm params) then None
     else Some (toAlgorithm (gi_algorithm params)))
    (or_undefined (gi_extractable params))
    (unless_falsy (gi_keyUsages params)) = (Throw e, ks') ->
  (onMessage session a w).1 = Throw e /\
  memoryStorage (onMessage session a w).2 = memoryStorage w /\
  heap (onMessage session a w).2 = heap w /\
  built (onMessage session a w).2 = built w.
Proof.
  intros Hsw Himp Hp Hks. run. rewrite Hsw, Himp. cbn. rewrite Hp. cbn.
  rewrite Hp. cbn. rewrite Hks. cbn. repeat split; reflexivity.
Qed.

(** The state a [GetItem] that finds a key leaves. *)
Lemma getItem_hit_state session a w params p key ks' :
  switch (action a) = CaseGetItem ->
  GetItem_importProto a = Ok params ->
  providers w !! gi_providerID params = Some p ->
  ks_getItem (class p) (keyStorage p) (gi_key params)
    (if isEmpty (gi_algorithm params) then None
     else Some (toAlgorithm (gi_algorithm params)))
    (or_undefined (gi_extractable params))
    (unless_falsy (gi_keyUsages params)) = (Ok (Some key), ks') ->
  let pid := gi_providerID params in
  let h := newItemId (built w) key pid in
  let l := fresh (dom (heap w)) in
  memoryStorage (onMessage session a w).2 !! h = Some (mkItem h pid l) /\
  heap (onMessage session a w).2 !! l = Some key.
Proof.
  intros Hsw Himp Hp Hks pid h l. subst pid h l.
  run. rewrite Hsw, Himp. cbn. rewrite Hp. cbn. rewrite Hp. cbn.
  rewrite Hks. cbn. rewrite lookup_insert_eq. cbn.
  destruct (toProto_exportProto _ key); cbn;
    rewrite !lookup_insert_eq; split; reflexivity.
Qed.

(** X10. A key that [GetItem] found is usable by its handle in the next
    action: an [IndexOf] that names the handle [GetItem] made passes that
    very key to the storage, whatever the export of the handle answered. *)
Theorem getItem_handle_usable_by_indexOf session a w params p key ks'
    session2 a2 params2 p2 :
  switch (action a) = CaseGetItem ->
  GetItem_importProto a = Ok params ->
  providers w !! gi_providerID params = Some p ->
  ks_getItem (class p) (keyStorage p) (gi_key params)
    (if isEmpty (gi_algorithm params) then None
     else Some (toAlgorithm (gi_algorithm params)))
    (or_undefined (gi_extractable params))
    (unless_falsy (gi_keyUsages params)) = (Ok (Some key), ks') ->
  let w1 := (onMessage session a w).2 in
  switch (action a2) = CaseIndexOf ->
  IndexOf_importProto a2 = Ok params2 ->
  ip_item_id params2 = newItemId (built w) key (gi_providerID params) ->
  providers w1 !! ip_providerID params2 = Some p2 ->
  last (trace (onMessage session2 a2 w1).2) =
    Some (EvKeyStorage (ip_providerID params2) (CallIndexOf key)) /\
  (onMessage session2 a2 w1).1 =
    match (ks_indexOf (class p2) (keyStorage p2) key).1 with
    | Ok (Some (String c s)) =>
        Ok (set_data (new_ResultProto a2) (FromUtf8String (String c s)))
    | Ok _ => Ok (new_ResultProto a2)
    | Throw e => Throw e
    end.
Proof.
  intros Hsw Himp Hp Hks w1 Hsw2 Himp2 Hid Hp2.
  destruct (getItem_hit_state session a w params p key ks' Hsw Himp Hp Hks)
    as [Hit Hk].
  cbv zeta in Hit, Hk. fold w1 in Hit, Hk. rewrite <- Hid in Hit.
  rewrite (indexOf_run session2 a2 w1 params2 p2 _ key Hsw2 Himp2 Hp2 Hit Hk).
  cbn [fst snd trace]. split; [|reflexivity].
  change [EvImportProto (action a2); EvGetCrypto (ip_providerID params2);
          EvMemoryItem (ip_item_id params2);
          EvKeyStorage (ip_providerID params2) (CallIndexOf key)]
    with ([EvImportProto (action a2); EvGetCrypto (ip_providerID params2);
           EvMemoryItem (ip_item_id params2)]
          ++ [EvKeyStorage (ip_providerID params2) (CallIndexOf key)]).
  rewrite app_assoc. apply last_snoc.
Qed.

Lemma converted_plain k : exists alg, algorithm (converted k) = PlainAlgorithm alg.
Proof. unfold converted. destruct (algorithm k) eqn:E; cbn; eauto. Qed.

Lemma converted_idem k : converted (converted k) = converted k.
Proof.
  destruct (converted_plain k) as [alg Halg].
  unfold converted at 1. by rewrite Halg.
Qed.

(** X11. A [SetItem] on a key whose algorithm is a plain dictionary writes
    nothing to the live key: it is persisted as it is. *)
Theorem setItem_plain_algorithm_writes_nothing session a w params it k p alg :
  switch (action a) = CaseSetItem ->
  SetItem_importProto a = Ok params ->
  memoryStorage w !! ip_item_id params = Some it ->
  heap w !! item it = Some k ->
  providers w !! ip_providerID params = Some p ->
  algorithm k = PlainAlgorithm alg ->
  heap (onMessage session a w).2 = heap w /\
  exists options,
    trace (onMessage session a w).2 =
      trace w ++ [EvImportProto (action a); EvMemoryItem (ip_item_id params);
                  EvGetCrypto (ip_providerID params);
                  EvKeyStorage (ip_providerID params) (CallSetItem k options)].
Proof.
  intros Hsw Himp Hit Hk Hp Halg.
  rewrite (KeyStorageFacts.setItem_run session a w params it k p
             Hsw Himp Hit Hk Hp).
  cbn [snd heap trace].
  assert (Hc : converted k = k) by (unfold converted; by rewrite Halg).
  rewrite Hc, Halg. split; [by apply insert_id|]. eexists. reflexivity.
Qed.

(** X12. The conversion of [SetItem] is done once: a second [SetItem] on
    the same handle finds the converted key, writes nothing more to it and
    persists the same key. *)
Theorem setItem_twice_converts_once session a w params it k p
    session2 a2 params2 p2 :
  switch (action a) = CaseSetItem ->
  SetItem_importProto a = Ok params ->
  memoryStorage w !! ip_item_id params = Some it ->
  heap w !! item it = Some k ->
  providers w !! ip_providerID params = Some p ->
  let w1 := (onMessage session a w).2 in
  switch (action a2) = CaseSetItem ->
  SetItem_importProto a2 = Ok params2 ->
  ip_item_id params2 = ip_item_id params ->
  providers w1 !! ip_providerID params2 = Some p2 ->
  heap (onMessage session2 a2 w1).2 = heap w1 /\
  heap w1 !! item it = Some (converted k) /\
  exists options,
    trace (onMessage session2 a2 w1).2 =
      trace w1 ++ [EvImportProto (action a2);
                   EvMemoryItem (ip_item_id params2);
                   EvGetCrypto (ip_providerID params2);
                   EvKeyStorage (ip_providerID params2)
                     (CallSetItem (converted k) options)].
Proof.
  intros Hsw Himp Hit Hk Hp w1 Hsw2 Himp2 Hid Hp2.
  assert (Hm1 : memoryStorage w1 !! ip_item_id params2 = Some it).
  { subst w1.
    rewrite (KeyStorageFacts.setItem_run session a w params it k p
               Hsw Himp Hit Hk Hp). cbn [snd memoryStorage]. by rewrite Hid. }
  assert (Hk1 : heap w1 !! item it = Some (converted k)).
  { subst w1.
    rewrite (KeyStorageFacts.setItem_run session a w params it k p
               Hsw Himp Hit Hk Hp). cbn [snd heap]. apply lookup_insert_eq. }
  rewrite (KeyStorageFacts.setItem_run session2 a2 w1 params2 it (converted k)
             p2 Hsw2 Himp2 Hm1 Hk1 Hp2).
  cbn [snd heap trace]. rewrite converted_idem.
  destruct (converted_plain k) as [alg Halg]. rewrite Halg.
  split; [by apply insert_id|]. split; [exact Hk1|].
  eexists. reflexivity.
Qed.

End Facts.

(** ** The statements above at the sample platform *)

Lemma onMessage_keeps_memoryStorage_witness :
  memoryStorage (Sample.onMessage Sample.session SampleMore.clear_ossl
                   (Sample.world PvCrypto)).2 =
    memoryStorage (Sample.world PvCrypto) /\
  is_Some (memoryStorage (Sample.onMessage Sample.session Sample.getItem_aes
                            (Sample.world PvCrypto)).2 !! "h1").
Proof.
  split.
  - apply (proj2 (@onMessage_keeps_memoryStorage _ Sample.collaborators
                    Sample.session SampleMore.clear_ossl
                    (Sample.world PvCrypto))).
    intros E. vm_compute in E. discriminate.
  - apply (proj1 (@onMessage_keeps_memoryStorage _ Sample.collaborators
                    Sample.session Sample.getItem_aes
                    (Sample.world PvCrypto)) "h1").
    vm_compute. by eexists.
Defined.

Lemma onMessage_keeps_providers_witness :
  exists p',
    providers (Sample.onMessage Sample.session SampleMore.clear_ossl
                 (Sample.world PvCrypto)).2 !! "token" = Some p' /\
    class p' = PvCrypto.
Proof.
  exact (proj1 (@onMessage_keeps_providers _ Sample.collaborators
                  Sample.session SampleMore.clear_ossl (Sample.world PvCrypto))
           "token" (@mkProvider Sample.platform PvCrypto []) eq_refl).
Defined.

Lemma onMessage_keeps_live_keys_witness :
  exists k',
    heap (Sample.onMessage Sample.session Sample.setItem_h1
            (Sample.world PvCrypto)).2 !! 0 = Some k' /\
    usages k' = ["sign"] /\ native k' = 7.
Proof.
  destruct (@onMessage_keeps_live_keys _ Sample.collaborators
              Sample.session Sample.setItem_h1 (Sample.world PvCrypto)
              0 Sample.rsa_key eq_refl)
    as (k' & Hk & _ & _ & Hu & Hn & _).
  exists k'. split; [exact Hk|]. split; [exact Hu|exact Hn].
Defined.

Lemma onMessage_result_echoes_action_witness :
  r_actionId (set_data (new_ResultProto Sample.getItem_aes)
                (FromUtf8String "ossl-1")) = "1" /\
  r_action (set_data (new_ResultProto Sample.getItem_aes)
              (FromUtf8String "ossl-1")) = "crypto/keyStorage/getItem".
Proof.
  exact (@onMessage_result_echoes_action _ Sample.collaborators
           Sample.session Sample.getItem_aes (Sample.world PvCrypto)
           (set_data (new_ResultProto Sample.getItem_aes)
              (FromUtf8String "ossl-1")) eq_refl).
Defined.

Lemma decode_failure_stops_handler_witness :
  SampleMore.strict_onMessage Sample.session SampleMore.getItem_nothing
    SampleMore.world =
    (Throw SampleMore.malformed,
     @logged Sample.platform SampleMore.world
       [EvImportProto "crypto/keyStorage/getItem"]).
Proof.
  exact (@decode_failure_stops_handler _ SampleMore.strict Sample.session
           SampleMore.getItem_nothing SampleMore.world SampleMore.malformed
           eq_refl).
Defined.

Lemma unknown_provider_stops_handler_witness :
  Sample.onMessage Sample.session SampleMore.getItem_ghost SampleMore.world =
    (Throw (mkError PROVIDER_NOT_FOUND "Cannot get crypto by given ID 'ghost'"),
     @logged Sample.platform SampleMore.world
       [EvImportProto "crypto/keyStorage/getItem"; EvGetCrypto "ghost"]).
Proof.
  apply (@unknown_provider_stops_handler _ Sample.collaborators Sample.session
           SampleMore.getItem_ghost SampleMore.world "ghost").
  - intros E. vm_compute in E. discriminate.
  - reflexivity.
  - reflexivity.
Defined.

Lemma indexOf_data_only_for_nonempty_index_witness :
  exists r,
    (Sample.onMessage Sample.session SampleMore.indexOf_h1 SampleMore.world).1
      = Ok r /\ data r = None.
Proof.
  destruct (@indexOf_data_only_for_nonempty_index _ Sample.collaborators
              Sample.session SampleMore.indexOf_h1 SampleMore.world
              (mkItemParams "ossl" "h1")
              (@mkProvider Sample.platform OpenSSLCrypto [("aes", 3); ("", 7)])
              (mkItem "h1" "token" 0) Sample.rsa_key (Some "")
              [("aes", 3); ("", 7)]
              eq_refl eq_refl eq_refl eq_refl eq_refl eq_refl)
    as ((r & Hr & Hnone & _) & _).
  exists r. split; [exact Hr|]. apply Hnone. by right.
Defined.

Lemma clear_and_removeItem_keep_handles_witness :
  memoryStorage (Sample.onMessage Sample.session SampleMore.clear_ossl
                   SampleMore.world).2 !! "h1" =
    Some (mkItem "h1" "token" 0) /\
  (Sample.onMessage Sample.session SampleMore.removeItem_aes
     SampleMore.world).1 = Ok (new_ResultProto SampleMore.removeItem_aes).
Proof.
  split.
  - unfold Sample.onMessage.
    rewrite (proj1 (@clear_and_removeItem_keep_handles _ Sample.collaborators
                      Sample.session SampleMore.clear_ossl SampleMore.world
                      (@mkProvider Sample.platform OpenSSLCrypto
                         [("aes", 3); ("", 7)]) [])
               (mkProviderParams "ossl") eq_refl eq_refl eq_refl eq_refl).
    reflexivity.
  - unfold Sample.onMessage.
    rewrite (proj2 (@clear_and_removeItem_keep_handles _ Sample.collaborators
                      Sample.session SampleMore.removeItem_aes SampleMore.world
                      (@mkProvider Sample.platform OpenSSLCrypto
                         [("aes", 3); ("", 7)]) [("", 7)])
               (mkRemoveItem "ossl" "aes") eq_refl eq_refl eq_refl eq_refl).
    reflexivity.
Defined.

Lemma getItem_provider_failure_registers_nothing_witness :
  (SampleMore.strict_onMessage Sample.session SampleMore.getItem_locked
     SampleMore.world).1 = Throw SampleMore.locked /\
  memoryStorage (SampleMore.strict_onMessage Sample.session
                   SampleMore.getItem_locked SampleMore.world).2 =
    memoryStorage SampleMore.world.
Proof.
  destruct (@getItem_provider_failure_registers_nothing _ SampleMore.strict
              Sample.session SampleMore.getItem_locked SampleMore.world
              (@mkGetItem Sample.platform "ossl" "locked" None (Some false) None)
              (@mkProvider Sample.platform OpenSSLCrypto [("aes", 3); ("", 7)])
              SampleMore.locked [("aes", 3); ("", 7)]
              eq_refl eq_refl eq_refl eq_refl)
    as (Hr & Hm & _).
  split; [exact Hr|exact Hm].
Defined.

Lemma getItem_handle_usable_by_indexOf_witness :
  last (trace (Sample.onMessage Sample.session SampleMore.indexOf_new
                 SampleMore.after_getItem).2) =
    Some (EvKeyStorage "ossl" (CallIndexOf (Sample.stored_key 3))).
Proof.
  exact (proj1 (@getItem_handle_usable_by_indexOf _ Sample.collaborators
                  Sample.session Sample.getItem_aes (Sample.world PvCrypto)
                  (@mkGetItem Sample.platform "ossl" "aes" None (Some false) None)
                  (@mkProvider Sample.platform OpenSSLCrypto [("aes", 3)])
                  (Sample.stored_key 3) [("aes", 3)]
                  Sample.session SampleMore.indexOf_new
                  (mkItemParams "ossl" "ossl-1")
                  (@mkProvider Sample.platform OpenSSLCrypto [("aes", 3)])
                  eq_refl eq_refl eq_refl eq_refl
                  eq_refl eq_refl eq_refl eq_refl)).
Defined.

Lemma setItem_plain_algorithm_writes_nothing_witness :
  heap (Sample.onMessage Sample.session SampleMore.setItem_new
          SampleMore.after_getItem).2 = heap SampleMore.after_getItem.
Proof.
  exact (proj1 (@setItem_plain_algorithm_writes_nothing _ Sample.collaborators
                  Sample.session SampleMore.setItem_new
                  SampleMore.after_getItem
                  (mkItemParams "token" "ossl-1") (mkItem "ossl-1" "ossl" 1)
                  (Sample.stored_key 3)
                  (@mkProvider Sample.platform PvCrypto []) "AES-GCM"
                  eq_refl eq_refl eq_refl eq_refl eq_refl eq_refl)).
Defined.

Lemma setItem_twice_converts_once_witness :
  heap (Sample.onMessage Sample.session Sample.setItem_h1
          SampleMore.after_setItem).2 = heap SampleMore.after_setItem.
Proof.
  exact (proj1 (@setItem_twice_converts_once _ Sample.collaborators
                  Sample.session Sample.setItem_h1 (Sample.world PvCrypto)
                  (mkItemParams "token" "h1") (mkItem "h1" "token" 0)
                  Sample.rsa_key (@mkProvider Sample.platform PvCrypto [])
                  Sample.session Sample.setItem_h1
                  (mkItemParams "token" "h1")
                  (@mkProvider Sample.platform PvCrypto
                     [("https://example.org", 7)])
                  eq_refl eq_refl eq_refl eq_refl eq_refl
                  eq_refl eq_refl eq_refl eq_refl)).
Defined.

End KeyStorageMore.

(** * More properties of [SubtleCrypto] *)

Module SubtleMore.
Import Subtle.
#[local] Open Scope list_scope.

Section Facts.
Context `{Collaborators}.

Ltac run :=
  unfold deriveBits, digest, generateKey, send, native_digest, console_warn,
    importKeyPair, importKey, try_catch, bind, lift, log, ret;
  cbn [fst snd].

Ltac answers :=
  repeat (cbn [fst snd];
          match goal with
          | |- context [match ?x with _ => _ end] =>
              lazymatch x with
              | context [match _ with _ => _ end] => fail
              | _ => destruct x eqn:?
              end
          end);
  cbn [fst snd].

Ltac count_sent :=
  unfold SubtleAux.sent; rewrite ?omap_app; cbn;
  rewrite ?app_nil_r, <- ?app_assoc; reflexivity.

(** X13. [digest] validates its arguments before anything else: when the
    algorithm or the data is refused, the error is returned with nothing
    done, the in-process capability not tried and nothing sent. *)
Theorem digest_validates_first this self algorithm data t e :
  checkAlgorithm algorithm "algorithm" = Throw e \/
  (checkAlgorithm algorithm "algorithm" = Ok tt /\
   checkBufferSource data "data" = Throw e) ->
  digest this self algorithm data t = (Throw e, t).
Proof.
  intros [Ha|[Ha Hd]]; run; rewrite Ha; [reflexivity|].
  rewrite Hd. reflexivity.
Qed.

(** X14. [deriveBits] and [generateKey] answer only after sending one
    action, and never send more than one; [digest] sends at most one.  An
    action sent names the provider the client is bound to. *)
Theorem operations_send_at_most_once this t :
  (forall algorithm baseKey length,
     let r := deriveBits this algorithm baseKey length t in
     (exists a, SubtleAux.providerID a = id this /\
                SubtleAux.sent r.2 = SubtleAux.sent t ++ [a]) \/
     (SubtleAux.sent r.2 = SubtleAux.sent t /\ exists e, r.1 = Throw e)) /\
  (forall algorithm extractable keyUsages,
     let r := generateKey this algorithm extractable keyUsages t in
     (exists a, SubtleAux.providerID a = id this /\
                SubtleAux.sent r.2 = SubtleAux.sent t ++ [a]) \/
     (SubtleAux.sent r.2 = SubtleAux.sent t /\ exists e, r.1 = Throw e)) /\
  (forall self algorithm data,
     let r := digest this self algorithm data t in
     (exists a, SubtleAux.providerID a = id this /\
                SubtleAux.sent r.2 = SubtleAux.sent t ++ [a]) \/
     SubtleAux.sent r.2 = SubtleAux.sent t).
Proof.
  split; [|split].
  - intros algorithm baseKey length r. subst r. run. answers.
    all: try (right; split; [reflexivity|by eexists]).
    all: left; eexists; split; [|count_sent]; reflexivity.
  - intros algorithm extractable keyUsages r. subst r. run. answers.
    all: try (right; split; [reflexivity|by eexists]).
    all: left; eexists; split; [|count_sent]; reflexivity.
  - intros self algorithm data r. subst r. run.
    destruct (checkAlgorithm _ _) as [[]|]; [|by right].
    destruct (checkBufferSource _ _) as [[]|]; [|by right].
    destruct self as [error|[subtle|]]; cbn.
    + right. count_sent.
    + destruct (subtle _ _); cbn.
      * right. count_sent.
      * left.
        exists (DigestActionProto (prepareAlgorithm algorithm)
                  (toArrayBuffer data) (id this)).
        split; [reflexivity|]. count_sent.
    + left.
      exists (DigestActionProto (prepareAlgorithm algorithm)
                (toArrayBuffer data) (id this)).
      split; [reflexivity|]. count_sent.
Qed.

(** X15. When the service refuses a [generateKey] request, its error is
    returned as it is and the answer is read in neither shape. *)
Theorem generateKey_service_error this algorithm extractable keyUsages t e :
  checkAlgorithm algorithm "algorithm" = Ok tt ->
  checkPrimitive extractable "boolean" "extractable" = Ok tt ->
  checkArray keyUsages "keyUsages" = Ok tt ->
  let action :=
    GenerateKeyActionProto (id this) (prepareAlgorithm algorithm)
      extractable keyUsages in
  client_send action = Throw e ->
  generateKey this algorithm extractable keyUsages t =
    (Throw e, t ++ [EvSend action]).
Proof.
  intros Ha He Hu action Hs. run. rewrite Ha, He, Hu. fold action.
  by rewrite Hs.
Qed.

End Facts.

(** ** The statements above at the sample platform *)

Lemma digest_validates_first_witness :
  Sample.digest Sample.this Sample.self_same "" Sample.abc [] =
    (Throw (mkError BAD_PARAMETERS "algorithm: Wrong type"), []).
Proof.
  exact (@digest_validates_first _ _ Sample.client Sample.this
           Sample.self_same "" Sample.abc []
           (mkError BAD_PARAMETERS "algorithm: Wrong type")
           (or_introl eq_refl)).
Defined.

Lemma operations_send_at_most_once_witness :
  (exists a,
     @SubtleAux.providerID Sample.platform Sample.client_types a = "token" /\
     SubtleAux.sent (Sample.generateKey Sample.this "AES-GCM"
                       (VBoolean false) ["encrypt"] []).2 = [a]) \/
  (SubtleAux.sent (Sample.generateKey Sample.this "AES-GCM"
                     (VBoolean false) ["encrypt"] []).2 = [] /\
   exists e,
     (Sample.generateKey Sample.this "AES-GCM"
        (VBoolean false) ["encrypt"] []).1 = Throw e).
Proof.
  exact (proj1 (proj2 (@operations_send_at_most_once _ _ Sample.client
                         Sample.this []))
           "AES-GCM" (VBoolean false) ["encrypt"]).
Defined.

Lemma generateKey_service_error_witness :
  @generateKey Sample.platform Sample.client_types SampleMore.offline
    Sample.this "AES-GCM" (VBoolean false) ["encrypt"] [] =
    (Throw SampleMore.unreachable,
     [EvSend (@GenerateKeyActionProto Sample.platform Sample.client_types
                "token" (Some "AES-GCM") (VBoolean false) ["encrypt"])]).
Proof.
  exact (@generateKey_service_error _ _ SampleMore.offline Sample.this
           "AES-GCM" (VBoolean false) ["encrypt"] [] SampleMore.unreachable
           eq_refl eq_refl eq_refl eq_refl).
Defined.

End SubtleMore.

(** * Properties of the other operations of [SubtleCrypto] *)

Module SubtleOpsFacts.
Import Subtle SubtleOps.
#[local] Open Scope list_scope.

Section Facts.
Context `{Collaborators} `{JsonTypes} `{!OpsCollaborators}.

Ltac run :=
  unfold encrypt, decrypt, encryptData, deriveKey, exportKey, importKey,
    sign, verify, wrapKey, unwrapKey, SubtleOps.send, SubtleOps.importProto,
    SubtleOps.bind, SubtleOps.lift, SubtleOps.log, SubtleOps.ret;
  cbn [fst snd].

Ltac answers :=
  repeat (cbn [fst snd];
          match goal with
          | |- context [match ?x with _ => _ end] =>
              lazymatch x with
              | context [match _ with _ => _ end] => fail
              | _ => destruct x eqn:?
              end
          end);
  cbn [fst snd].

Ltac count_sent :=
  unfold sent; rewrite ?omap_app; cbn;
  rewrite ?app_nil_r, <- ?app_assoc; reflexivity.

Ltac asked :=
  first
    [ right; split; [reflexivity|by eexists]
    | left; eexists; split; [|count_sent]; reflexivity ].

(** X16. Every other operation answers only after asking the service once,
    and none asks twice; the action names the provider the client is bound
    to.  An operation that asked nothing has failed. *)
Theorem operations_ask_once this t :
  (forall algorithm key data type,
     asks_once this t (encryptData this algorithm key data type t)) /\
  (forall algorithm baseKey derivedKeyType extractable keyUsages,
     asks_once this t
       (deriveKey this algorithm baseKey derivedKeyType extractable
          keyUsages t)) /\
  (forall format key, asks_once this t (exportKey this format key t)) /\
  (forall format keyData algorithm extractable keyUsages,
     asks_once this t
       (importKey this format keyData algorithm extractable keyUsages t)) /\
  (forall algorithm key data, asks_once this t (sign this algorithm key data t)) /\
  (forall algorithm key signature data,
     asks_once this t (verify this algorithm key signature data t)) /\
  (forall format key wrappingKey wrapAlgorithm,
     asks_once this t (wrapKey this format key wrappingKey wrapAlgorithm t)) /\
  (forall format wrappedKey unwrappingKey unwrapAlgorithm
          unwrappedKeyAlgorithm extractable keyUsages,
     asks_once this t
       (unwrapKey this format wrappedKey unwrappingKey unwrapAlgorithm
          unwrappedKeyAlgorithm extractable keyUsages t)).
Proof.
  unfold asks_once. repeat split; intros; run; answers; asked.
Qed.

(** X17. [encryptData] builds an encrypt action exactly for the type
    ["encrypt"]; every other type, ["decrypt"] or not, builds a decrypt
    action.  The two actions carry the same provider, algorithm, key and
    bytes, and what the service answers is returned unchanged. *)
Theorem encryptData_selects_action this algorithm key data t :
  checkAlgorithm algorithm "algorithm" = Ok tt ->
  checkCryptoKey (VKey key) "key" = Ok tt ->
  checkBufferSource data "data" = Ok tt ->
  let algProto := prepareAlgorithm algorithm in
  let rawData := toArrayBuffer data in
  let enc := EncryptActionProto (id this) algProto key rawData in
  let dec := DecryptActionProto (id this) algProto key rawData in
  encrypt this algorithm key data t = (ops_send enc, t ++ [SubtleOps.EvSend enc]) /\
  decrypt this algorithm key data t = (ops_send dec, t ++ [SubtleOps.EvSend dec]) /\
  (forall type, type <> "encrypt" ->
     encryptData this algorithm key data type t =
       decrypt this algorithm key data t).
Proof.
  intros Ha Hk Hd algProto rawData enc dec. repeat split.
  - run. rewrite Ha, Hk, Hd. rewrite decide_True by reflexivity.
    fold algProto rawData enc. by destruct (ops_send enc).
  - run. rewrite Ha, Hk, Hd. rewrite decide_False by discriminate.
    fold algProto rawData dec. by destruct (ops_send dec).
  - intros type Hty. run. rewrite Ha, Hk, Hd.
    rewrite (decide_False (P := type = "encrypt")) by done.
    rewrite (decide_False (P := "decrypt" = "encrypt")) by discriminate.
    reflexivity.
Qed.

(** X18. [verify] answers [true] exactly when the first byte of the
    service's answer is not zero; an empty answer verifies as [false]. *)
Theorem verify_reads_first_byte this algorithm key signature data t result :
  checkAlgorithm algorithm "algorithm" = Ok tt ->
  checkCryptoKey (VKey key) "key" = Ok tt ->
  checkBufferSource signature "signature" = Ok tt ->
  checkBufferSource data "data" = Ok tt ->
  let action :=
    VerifyActionProto (id this) (prepareAlgorithm algorithm) key
      (toArrayBuffer data) (toArrayBuffer signature) in
  ops_send action = Ok result ->
  exists b,
    verify this algorithm key signature data t =
      (Ok b, t ++ [SubtleOps.EvSend action]) /\
    (b = true <-> exists c rest, result = c :: rest /\ c <> Byte.x00).
Proof.
  intros Ha Hk Hs Hd action Hsend.
  exists (first_byte_truthy result). split.
  - run. rewrite Ha, Hk, Hs, Hd. fold action. by rewrite Hsend.
  - unfold first_byte_truthy. destruct result as [|c rest].
    + split; [discriminate|]. by intros (c & rest & Hr & _).
    + split.
      * intros Hb. exists c, rest. split; [reflexivity|].
        intros ->. discriminate.
      * intros (c' & rest' & [= <- <-] & Hc).
        destruct (Byte.eqb c Byte.x00) eqn:E; [|reflexivity].
        apply Byte.byte_dec_bl in E. by destruct Hc.
Qed.

(** X19. [exportKey] parses the answer as JSON exactly for the format
    ["jwk"], read as the binary string of its bytes; for every other
    format it returns the bytes of the answer unchanged. *)
Theorem exportKey_jwk_or_raw this format key t result :
  checkPrimitive format "string" "format" = Ok tt ->
  checkCryptoKey (VKey key) "key" = Ok tt ->
  let action := ExportKeyActionProto (id this) format key in
  ops_send action = Ok result ->
  (format = VString "jwk" ->
   exportKey this format key t =
     (match JSON_parse (ToBinary result) with
      | Ok jwk => Ok (ExportedJwk jwk)
      | Throw e => Throw e
      end, t ++ [SubtleOps.EvSend action])) /\
  (format <> VString "jwk" ->
   exportKey this format key t =
     (Ok (ExportedRaw result), t ++ [SubtleOps.EvSend action])).
Proof.
  intros Hf Hk action Hsend. split.
  - intros ->.
    assert (Hj : is_jwk (VString "jwk") = true)
      by (cbn; by apply bool_decide_eq_true).
    run. rewrite Hf, Hk. fold action. rewrite Hsend, Hj. cbn.
    by destruct (JSON_parse _).
  - intros Hne. run. rewrite Hf, Hk. fold action. rewrite Hsend.
    assert (Hj : is_jwk format = false).
    { destruct format; try reflexivity. cbn. apply bool_decide_eq_false.
      intros ->. by destruct Hne. }
    by rewrite Hj.
Qed.

(** X20. [importKey] with the format ["jwk"] sends the JSON text of the
    key data and never checks it as a buffer; with any other format the
    key data must pass the buffer check, nothing being sent when it does
    not, and its bytes are what is sent. *)
Theorem importKey_prepares_keyData this format keyData algorithm extractable
    keyUsages t :
  checkPrimitive format "string" "format" = Ok tt ->
  checkAlgorithm algorithm "algorithm" = Ok tt ->
  checkPrimitive extractable "boolean" "extractable" = Ok tt ->
  checkArray keyUsages "keyUsages" = Ok tt ->
  let action prepared :=
    ImportKeyActionProto (id this) (prepareAlgorithm algorithm) prepared
      format extractable keyUsages in
  let r := importKey this format keyData algorithm extractable keyUsages t in
  (format = VString "jwk" ->
   sent r.2 = sent t ++ [action (FromUtf8String (JSON_stringify keyData))]) /\
  (format <> VString "jwk" ->
   (forall e, keyData_checkBufferSource keyData "keyData" = Throw e ->
              r = (Throw e, t)) /\
   (keyData_checkBufferSource keyData "keyData" = Ok tt ->
    sent r.2 = sent t ++ [action (keyData_toArrayBuffer keyData)])).
Proof.
  intros Hf Ha He Hu action r. subst r. split.
  - intros ->.
    assert (Hj : is_jwk (VString "jwk") = true)
      by (cbn; by apply bool_decide_eq_true).
    run. rewrite Hf, Ha, He, Hu, Hj. answers; count_sent.
  - intros Hne.
    assert (Hj : is_jwk format = false).
    { destruct format; try reflexivity. cbn. apply bool_decide_eq_false.
      intros ->. by destruct Hne. }
    split.
    + intros e Hc. run. rewrite Hf, Ha, He, Hu, Hj. cbn. by rewrite Hc.
    + intros Hc. run. rewrite Hf, Ha, He, Hu, Hj. cbn. rewrite Hc.
      answers; count_sent.
Qed.

(** X21. [deriveKey], [importKey] and [unwrapKey] return what
    [CryptoKeyProto.importProto] reads in the service's answer; when a
    check or the service fails, the error is returned and nothing is
    read. *)
Theorem key_operations_read_the_answer this t :
  let reads (run : Outcome CryptoKeyProto * list SubtleOps.Event) :=
    (exists a result,
       ops_send a = Ok result /\
       run = (CryptoKeyProto_importProto result,
              t ++ [SubtleOps.EvSend a; SubtleOps.EvImportKey result])) \/
    (exists e, run.1 = Throw e /\
       (run.2 = t \/
        exists a, ops_send a = Throw e /\ run.2 = t ++ [SubtleOps.EvSend a])) in
  (forall algorithm baseKey derivedKeyType extractable keyUsages,
     reads (deriveKey this algorithm baseKey derivedKeyType extractable
              keyUsages t)) /\
  (forall format keyData algorithm extractable keyUsages,
     reads (importKey this format keyData algorithm extractable keyUsages t)) /\
  (forall format wrappedKey unwrappingKey unwrapAlgorithm
          unwrappedKeyAlgorithm extractable keyUsages,
     reads (unwrapKey this format wrappedKey unwrappingKey unwrapAlgorithm
              unwrappedKeyAlgorithm extractable keyUsages t)).
Proof.
  intros reads. subst reads. repeat split; intros; run; answers.
  all: try (right; eexists; split; [reflexivity|by left]).
  all: try (right; eexists; split; [reflexivity|];
            right; eexists; split; [eassumption|reflexivity]).
  all: left; do 2 eexists; (split; [eassumption|]);
    rewrite <- ?app_assoc; reflexivity.
Qed.

End Facts.

(** ** The statements above at the sample platform *)

Lemma operations_ask_once_witness :
  asks_once Sample.this []
    (SampleMore.unwrapKey Sample.this SampleMore.raw_format
       (Sample.bytes "wrapped") "k1" "AES-KW" "AES-GCM" SampleMore.yes
       ["encrypt"] []).
Proof.
  exact (proj2 (proj2 (proj2 (proj2 (proj2 (proj2 (proj2
           (@operations_ask_once _ _ Sample.client SampleMore.json
              SampleMore.ops Sample.this [])))))))
           SampleMore.raw_format (Sample.bytes "wrapped") "k1" "AES-KW"
           "AES-GCM" SampleMore.yes ["encrypt"]).
Defined.

Lemma encryptData_selects_action_witness :
  SampleMore.encryptData Sample.this "AES-GCM" "k2" Sample.abc "Encrypt" [] =
    SampleMore.decrypt Sample.this "AES-GCM" "k2" Sample.abc [].
Proof.
  apply (proj2 (proj2 (@encryptData_selects_action _ _ Sample.client
                         SampleMore.json SampleMore.ops Sample.this
                         "AES-GCM" "k2" Sample.abc []
                         eq_refl eq_refl eq_refl))).
  discriminate.
Defined.

Lemma verify_reads_first_byte_witness :
  exists b,
    SampleMore.verify Sample.this "ECDSA" "k1" (Sample.bytes "abc")
      (Sample.bytes "abc") [] =
      (Ok b,
       [SubtleOps.EvSend
          (@VerifyActionProto Sample.platform Sample.client_types
             "token" (Some "ECDSA") "k1" (Sample.bytes "abc")
             (Sample.bytes "abc"))]) /\
    b <> true.
Proof.
  destruct (@verify_reads_first_byte _ _ Sample.client SampleMore.json
              SampleMore.ops Sample.this "ECDSA" "k1" (Sample.bytes "abc")
              (Sample.bytes "abc") [] [Byte.x00]
              eq_refl eq_refl eq_refl eq_refl eq_refl)
    as (b & Hrun & Hb).
  exists b. split; [exact Hrun|].
  intros Htrue. apply Hb in Htrue as (c & rest & [= <- <-] & Hc).
  by destruct Hc.
Defined.

Lemma exportKey_jwk_or_raw_witness :
  (SampleMore.exportKey Sample.this SampleMore.jwk_format "k1" []).1 =
    Ok (@ExportedJwk SampleMore.json "{kty}") /\
  (SampleMore.exportKey Sample.this SampleMore.raw_format "k1" []).1 =
    Ok (@ExportedRaw SampleMore.json (Sample.bytes "raw")).
Proof.
  split.
  - unfold SampleMore.exportKey.
    rewrite (proj1 (@exportKey_jwk_or_raw _ _ Sample.client SampleMore.json
                      SampleMore.ops Sample.this SampleMore.jwk_format "k1" []
                      (Sample.bytes "{kty}") eq_refl eq_refl eq_refl)
               eq_refl).
    reflexivity.
  - unfold SampleMore.exportKey.
    rewrite (proj2 (@exportKey_jwk_or_raw _ _ Sample.client SampleMore.json
                      SampleMore.ops Sample.this SampleMore.raw_format "k1" []
                      (Sample.bytes "raw") eq_refl eq_refl eq_refl)
               ltac:(discriminate)).
    reflexivity.
Defined.

Lemma importKey_prepares_keyData_witness :
  sent (SampleMore.importKey Sample.this SampleMore.jwk_format
          SampleMore.jwk_data "AES-GCM" SampleMore.yes ["encrypt"] []).2 =
    [@ImportKeyActionProto Sample.platform Sample.client_types
       "token" (Some "AES-GCM") (Sample.bytes "{kty}") SampleMore.jwk_format
       SampleMore.yes ["encrypt"]] /\
  SampleMore.importKey Sample.this SampleMore.raw_format
    SampleMore.jwk_data "AES-GCM" SampleMore.yes ["encrypt"] [] =
    (Throw SampleMore.malformed, []).
Proof.
  split.
  - exact (proj1 (@importKey_prepares_keyData _ _ Sample.client SampleMore.json
                    SampleMore.ops Sample.this SampleMore.jwk_format
                    SampleMore.jwk_data "AES-GCM" SampleMore.yes ["encrypt"] []
                    eq_refl eq_refl eq_refl eq_refl) eq_refl).
  - exact (proj1 (proj2 (@importKey_prepares_keyData _ _ Sample.client
                           SampleMore.json SampleMore.ops Sample.this
                           SampleMore.raw_format SampleMore.jwk_data "AES-GCM"
                           SampleMore.yes ["encrypt"] []
                           eq_refl eq_refl eq_refl eq_refl)
                    ltac:(discriminate))
             SampleMore.malformed eq_refl).
Defined.

Lemma key_operations_read_the_answer_witness :
  (exists a result,
     SampleMore.ops_service a = Ok result /\
     SampleMore.unwrapKey Sample.this SampleMore.raw_format
       (Sample.bytes "wrapped") "k1" "AES-KW" "AES-GCM" SampleMore.yes
       ["encrypt"] [] =
       (Sample.shaped "key" result,
        [SubtleOps.EvSend a; SubtleOps.EvImportKey result])) \/
  (exists e,
     (SampleMore.unwrapKey Sample.this SampleMore.raw_format
        (Sample.bytes "wrapped") "k1" "AES-KW" "AES-GCM" SampleMore.yes
        ["encrypt"] []).1 = Throw e /\
     ((SampleMore.unwrapKey Sample.this SampleMore.raw_format
         (Sample.bytes "wrapped") "k1" "AES-KW" "AES-GCM" SampleMore.yes
         ["encrypt"] []).2 = [] \/
      exists a,
        SampleMore.ops_service a = Throw e /\
        (SampleMore.unwrapKey Sample.this SampleMore.raw_format
           (Sample.bytes "wrapped") "k1" "AES-KW" "AES-GCM" SampleMore.yes
           ["encrypt"] []).2 = [SubtleOps.EvSend a])).
Proof.
  exact (proj2 (proj2 (@key_operations_read_the_answer _ _ Sample.client
                         SampleMore.json SampleMore.ops Sample.this []))
           SampleMore.raw_format (Sample.bytes "wrapped") "k1" "AES-KW"
           "AES-GCM" SampleMore.yes ["encrypt"]).
Defined.

End SubtleOpsFacts.
